(** * pyObsCountDown: a shallow embedding of [main.py]

    The countdown script parses a time and a date specification, runs a
    polling loop that formats the remaining (or elapsed) time and writes it
    to [OUTPUT.txt], and reacts to single-key commands handled by a keyboard
    listener.  This development embeds the functions of [main.py] as Rocq
    functions over [Z] and [string] and proves properties of them.

    Conventions of the embedding:
    - Python [int] is [Z]; [//] and [%] with a positive divisor are [Z.div]
      and [Z.modulo] (both floor).
    - Python [str] is [string]; only ASCII text is modelled.  Characters
      outside ASCII (Unicode digits and Unicode white space accepted by
      [int()], non-ASCII case mappings of [str.lower]) are outside the model.
    - A [datetime] is a record of its fields; a [timedelta] and the float
      returned by [total_seconds()] are an exact count of microseconds, so
      the rounding of the float is not modelled.  The one failure of the
      float arithmetic, an [int] too large to convert, is.
    - The prompt sequence is modelled for lines typed at it; an interrupt
      during the prompt is outside the model.
    - [int()] is modelled without the limit that recent versions of Python
      put on the number of digits of a literal.
    - An exception is a value of [exn]; a function that may raise returns
      [result].  Failures of the file system in [write_output] are not
      modelled.
    - The listener thread and the main loop interleave at the granularity of
      one key handler call and one loop iteration. *)

From Stdlib Require Import ZArith List String Ascii Bool Lia.
Import ListNotations.

Open Scope string_scope.
Open Scope Z_scope.

(** ** Exceptions and results *)

(** Where an exception was raised; the Python class is given by [exn]. *)
Inductive origin : Type :=
| IntLiteral        (* int(): invalid literal *)
| TimeSeconds       (* raise ValueError("Seconds must be < 60 ...") *)
| TimeMinSec        (* raise ValueError("Minutes and seconds must be < 60 ...") *)
| TimeFormat        (* raise ValueError("Invalid time format") *)
| DateFormat        (* raise ValueError("Invalid date format") *)
| DateConstructor   (* datetime(year, month, day) refused its arguments *)
| DateArithmetic    (* datetime + timedelta out of range *)
| FloatConversion.  (* int too large to convert to float *)

Inductive exn : Type :=
| ValueError (o : origin)
| OverflowError (o : origin)
| KeyboardInterrupt.

Inductive result (A : Type) : Type :=
| Ok (a : A)
| Raise (e : exn).
Arguments Ok {A} a.
Arguments Raise {A} e.

Definition bind {A B : Type} (r : result A) (k : A -> result B) : result B :=
  match r with
  | Ok a => k a
  | Raise e => Raise e
  end.

Notation "x <- r ;; k" := (bind r (fun x => k))
  (at level 61, r at next level, right associativity).

(** The error kinds of the specification.  Both kinds are Python
    [ValueError]s (or an [OverflowError] of the [datetime] constructor); the
    kind is told by where the exception comes from. *)
Inductive error_kind : Type :=
| InvalidFormat
| InvalidDate
| OtherError.

Definition kind_of (e : exn) : error_kind :=
  match e with
  | ValueError IntLiteral | ValueError TimeSeconds | ValueError TimeMinSec
  | ValueError TimeFormat | ValueError DateFormat => InvalidFormat
  | ValueError DateConstructor | OverflowError DateConstructor => InvalidDate
  | _ => OtherError
  end.

(** ** Python strings *)

Module PyStr.

Definition colon : ascii := ":"%char.
Definition slash : ascii := "/"%char.
Definition nl : string := String (ascii_of_nat 10) "".
Definition cr : string := String (ascii_of_nat 13) "".

(** [s.split(sep)] for a one-character separator: never the empty list. *)
Fixpoint split (sep : ascii) (s : string) : list string :=
  match s with
  | EmptyString => [EmptyString]
  | String c s' =>
      if Ascii.eqb c sep then EmptyString :: split sep s'
      else match split sep s' with
           | p :: ps => String c p :: ps
           | [] => [String c EmptyString]
           end
  end.

Definition lower_char (c : ascii) : ascii :=
  let n := nat_of_ascii c in
  if (Nat.leb 65 n && Nat.leb n 90)%bool then ascii_of_nat (n + 32) else c.

(** [s.lower()], on ASCII. *)
Fixpoint lower (s : string) : string :=
  match s with
  | EmptyString => EmptyString
  | String c s' => String (lower_char c) (lower s')
  end.

(** White space as [str.strip()] removes it, on ASCII: TAB..CR, FS..US and
    the space. *)
Definition is_space (c : ascii) : bool :=
  let n := nat_of_ascii c in
  ((Nat.leb 9 n && Nat.leb n 13) || (Nat.leb 28 n && Nat.leb n 32))%bool.

Fixpoint lstrip (s : string) : string :=
  match s with
  | EmptyString => EmptyString
  | String c s' => if is_space c then lstrip s' else s
  end.

Fixpoint rstrip (s : string) : string :=
  match s with
  | EmptyString => EmptyString
  | String c s' =>
      match rstrip s' with
      | EmptyString => if is_space c then EmptyString else String c EmptyString
      | r => String c r
      end
  end.

(** [s.strip()]. *)
Definition strip (s : string) : string := rstrip (lstrip s).

(** White space as [int()] skips it around the literal of an ASCII text:
    TAB..CR and the space, and not FS..US. *)
Definition is_int_space (c : ascii) : bool :=
  let n := nat_of_ascii c in
  ((Nat.leb 9 n && Nat.leb n 13) || Nat.eqb n 32)%bool.

Fixpoint int_lstrip (s : string) : string :=
  match s with
  | EmptyString => EmptyString
  | String c s' => if is_int_space c then int_lstrip s' else s
  end.

Fixpoint int_rstrip (s : string) : string :=
  match s with
  | EmptyString => EmptyString
  | String c s' =>
      match int_rstrip s' with
      | EmptyString =>
          if is_int_space c then EmptyString else String c EmptyString
      | r => String c r
      end
  end.

(** The text [int()] reads, without the white space around it. *)
Definition int_strip (s : string) : string := int_rstrip (int_lstrip s).

(** Every character of [s] satisfies [p]. *)
Fixpoint all_chars (p : ascii -> bool) (s : string) : bool :=
  match s with
  | EmptyString => true
  | String c s' => p c && all_chars p s'
  end.

Definition is_not (sep : ascii) (c : ascii) : bool := negb (Ascii.eqb c sep).

Definition is_digit (c : ascii) : bool :=
  let n := nat_of_ascii c in (Nat.leb 48 n && Nat.leb n 57)%bool.

Definition digit_val (c : ascii) : Z := Z.of_nat (nat_of_ascii c) - 48.

Definition digit_char (d : Z) : ascii := ascii_of_nat (48 + Z.to_nat d).

(** The decimal digits of [n >= 0], most significant first; [fuel] bounds
    the number of digits. *)
Fixpoint dec_digits (fuel : nat) (n : Z) : string :=
  match fuel with
  | O => EmptyString
  | S f =>
      if n <? 10 then String (digit_char n) EmptyString
      else dec_digits f (n / 10) ++ String (digit_char (n mod 10)) EmptyString
  end.

(** A number has at most [log2 n + 1] decimal digits. *)
Definition str_nonneg (n : Z) : string :=
  dec_digits (S (Z.to_nat (Z.log2 n))) n.

(** [str(n)], also what [f"{n}"] gives. *)
Definition str (n : Z) : string :=
  if n <? 0 then String "-" (str_nonneg (- n)) else str_nonneg n.

Fixpoint zeros (k : nat) : string :=
  match k with
  | O => EmptyString
  | S k' => String "0" (zeros k')
  end.

(** [f"{n:02d}"]: the sign first, then zeros up to a total width of 2. *)
Definition fmt_02d (n : Z) : string :=
  let sign := if n <? 0 then "-" else "" in
  let body := str_nonneg (Z.abs n) in
  sign ++ zeros (2 - length sign - length body) ++ body.

(** The digits of an integer literal: single underscores are allowed
    between digits only. *)
Fixpoint parse_digits (s : string) (acc : Z) (after_digit : bool) : option Z :=
  match s with
  | EmptyString => if after_digit then Some acc else None
  | String c s' =>
      if is_digit c then parse_digits s' (acc * 10 + digit_val c) true
      else if Ascii.eqb c "_" then
             if after_digit then parse_digits s' acc false else None
      else None
  end.

(** [int(s)] in base 10; [None] stands for the [ValueError]. *)
Definition int_opt (s : string) : option Z :=
  match int_strip s with
  | String "-" r => option_map Z.opp (parse_digits r 0 false)
  | String "+" r => parse_digits r 0 false
  | t => parse_digits t 0 false
  end.

Definition int (s : string) : result Z :=
  match int_opt s with
  | Some n => Ok n
  | None => Raise (ValueError IntLiteral)
  end.

End PyStr.

(** ** [datetime] *)

Module DT.

Record datetime : Type := mk {
  year : Z; month : Z; day : Z;
  hour : Z; minute : Z; second : Z; microsecond : Z
}.

Definition MINYEAR : Z := 1.
Definition MAXYEAR : Z := 9999.

Definition is_leap (y : Z) : bool :=
  ((y mod 4 =? 0) && (negb (y mod 100 =? 0) || (y mod 400 =? 0)))%bool.

Definition days_in_month (y m : Z) : Z :=
  if m =? 2 then (if is_leap y then 29 else 28)
  else if (m =? 4) || (m =? 6) || (m =? 9) || (m =? 11) then 30
  else 31.

Definition days_before_year (y : Z) : Z :=
  let p := y - 1 in p * 365 + p / 4 - p / 100 + p / 400.

Fixpoint days_before_month_aux (y : Z) (k : nat) : Z :=
  match k with
  | O => 0
  | S k' => days_before_month_aux y k' + days_in_month y (Z.of_nat k)
  end.

(** Days of year [y] before the first day of month [m]. *)
Definition days_before_month (y m : Z) : Z :=
  days_before_month_aux y (Z.to_nat (m - 1)).

(** The proleptic Gregorian ordinal: 0001-01-01 is day 1. *)
Definition ymd2ord (y m d : Z) : Z :=
  days_before_year y + days_before_month y m + d.

(** Microseconds since 0001-01-01 00:00:00. *)
Definition to_micro (t : datetime) : Z :=
  (((ymd2ord (year t) (month t) (day t) - 1) * 86400
    + hour t * 3600 + minute t * 60 + second t) * 1000000)
  + microsecond t.

Definition max_micro : Z :=
  to_micro (mk MAXYEAR 12 31 23 59 59 999999).

Definition c_int (n : Z) : bool := (-2147483648 <=? n) && (n <=? 2147483647).

(** [datetime(year, month, day)]: an argument that does not fit a C [int]
    is an [OverflowError], one out of the calendar's range a
    [ValueError]. *)
Definition make (y m d : Z) : result datetime :=
  if negb (c_int y && c_int m && c_int d) then
    Raise (OverflowError DateConstructor)
  else if negb ((MINYEAR <=? y) && (y <=? MAXYEAR)) then
    Raise (ValueError DateConstructor)
  else if negb ((1 <=? m) && (m <=? 12)) then
    Raise (ValueError DateConstructor)
  else if negb ((1 <=? d) && (d <=? days_in_month y m)) then
    Raise (ValueError DateConstructor)
  else Ok (mk y m d 0 0 0 0).

(** [t.replace(hour=0, minute=0, second=0, microsecond=0)]. *)
Definition midnight (t : datetime) : datetime :=
  mk (year t) (month t) (day t) 0 0 0 0.

(** [t + timedelta(seconds=n)] as microseconds since the epoch of
    [to_micro]; out of the range of [datetime] it is an
    [OverflowError]. *)
Definition add_seconds (t : datetime) (n : Z) : result Z :=
  let r := to_micro t + n * 1000000 in
  if (0 <=? r) && (r <=? max_micro) then Ok r
  else Raise (OverflowError DateArithmetic).

End DT.

Import DT.

(** ** [parse_time], [parse_date], [format_time] *)

Definition parse_time (time_str : string) : result Z :=
  let parts := PyStr.split PyStr.colon time_str in
  match parts with
  | [p0] => PyStr.int p0
  | [p0; p1] =>
      minutes <- PyStr.int p0 ;;
      seconds <- PyStr.int p1 ;;
      if seconds >=? 60 then Raise (ValueError TimeSeconds)
      else Ok (minutes * 60 + seconds)
  | [p0; p1; p2] =>
      hours <- PyStr.int p0 ;;
      minutes <- PyStr.int p1 ;;
      seconds <- PyStr.int p2 ;;
      if (minutes >=? 60) || (seconds >=? 60) then Raise (ValueError TimeMinSec)
      else Ok (hours * 3600 + minutes * 60 + seconds)
  | _ => Raise (ValueError TimeFormat)
  end.

(** [date_str] is [None] when no date was given on the command line or at
    the prompt; [now] is what [datetime.now()] returns during the call. *)
Definition parse_date (date_str : option string) (now : datetime)
  : result datetime :=
  match date_str with
  | None => Ok (midnight now)
  | Some s =>
      if String.eqb s "" || String.eqb (PyStr.lower s) "null" then
        Ok (midnight now)
      else
        let parts := PyStr.split PyStr.slash s in
        match parts with
        | [p0; p1] =>
            month <- PyStr.int p0 ;;
            day <- PyStr.int p1 ;;
            DT.make (year now) month day
        | [p0; p1; p2] =>
            year <- PyStr.int p0 ;;
            month <- PyStr.int p1 ;;
            day <- PyStr.int p2 ;;
            DT.make year month day
        | _ => Raise (ValueError DateFormat)
        end
  end.

Definition format_time (total_seconds display_mode : Z) : string :=
  let total_seconds := if total_seconds <? 0 then 0 else total_seconds in
  let hours := total_seconds / 3600 in
  let minutes := (total_seconds mod 3600) / 60 in
  let seconds := total_seconds mod 60 in
  if display_mode =? 0 then
    if hours >? 0 then
      PyStr.str hours ++ ":" ++ PyStr.fmt_02d minutes ++ ":" ++ PyStr.fmt_02d seconds
    else if minutes >? 0 then
      PyStr.str minutes ++ ":" ++ PyStr.fmt_02d seconds
    else PyStr.str seconds
  else if display_mode =? 1 then
    if hours >? 0 then
      PyStr.str hours ++ ":" ++ PyStr.fmt_02d minutes ++ ":" ++ PyStr.fmt_02d seconds
    else if minutes >? 0 then
      PyStr.fmt_02d minutes ++ ":" ++ PyStr.fmt_02d seconds
    else PyStr.fmt_02d seconds
  else
    PyStr.fmt_02d hours ++ ":" ++ PyStr.fmt_02d minutes ++ ":" ++ PyStr.fmt_02d seconds.

(** ** [TimerState] and the keyboard listener *)

(** The two values [awaiting_confirm] takes besides [None]: the strings
    ['restart'] and ['quit']. *)
Inductive confirm : Type :=
| ConfirmRestart
| ConfirmQuit.

(** [total_paused] counts microseconds (seconds as a float in the source). *)
Record TimerState : Type := mkState {
  running : bool;
  paused : bool;
  restart_requested : bool;
  quit_requested : bool;
  awaiting_confirm : option confirm;
  pause_start : option datetime;
  total_paused : Z
}.

(** [TimerState()]. *)
Definition TimerState_init : TimerState :=
  mkState true false false false None None 0.

(** A key as the listener receives it: a character key with its [char]
    attribute (which may be [None]), or a special key, which has none. *)
Inductive key : Type :=
| KeyCode (char : option string)
| SpecialKey.

(** [key.char.lower() if hasattr(key, 'char') and key.char else None]. *)
Definition key_char (k : key) : option string :=
  match k with
  | KeyCode (Some c) => if String.eqb c "" then None else Some (PyStr.lower c)
  | KeyCode None => None
  | SpecialKey => None
  end.

Definition char_is (char : option string) (c : string) : bool :=
  match char with
  | Some s => String.eqb s c
  | None => false
  end.

(** What the program puts on the console: a printed text, or the report
    [Error: e] of an exception. *)
Inductive out_line : Type :=
| Line (text : string)
| ErrorReport (e : exn).

(** [on_press key]: the new state and what was printed.  [now] is the
    clock as a pause or a resume reads it. *)
Definition on_press (state : TimerState) (k : key) (now : datetime)
  : TimerState * list out_line :=
  let char := key_char k in
  match awaiting_confirm state with
  | Some pending =>
      if char_is char "y" then
        match pending with
        | ConfirmRestart =>
            (mkState (running state) (paused state) true (quit_requested state)
                     None (pause_start state) (total_paused state), [])
        | ConfirmQuit =>
            (mkState (running state) (paused state) (restart_requested state) true
                     None (pause_start state) (total_paused state), [])
        end
      else if char_is char "n" then
        (mkState (running state) (paused state) (restart_requested state)
                 (quit_requested state) None (pause_start state)
                 (total_paused state),
         [Line (PyStr.nl ++ "Cancelled." ++ PyStr.nl)])
      else (state, [])
  | None =>
      if char_is char "r" then
        (mkState (running state) (paused state) (restart_requested state)
                 (quit_requested state) (Some ConfirmRestart) (pause_start state)
                 (total_paused state),
         [Line (PyStr.nl ++ "Restart? (y/n): ")])
      else if char_is char "p" then
        if paused state then
          let '(ps, tp) :=
            match pause_start state with
            | Some t0 => (None, total_paused state + (to_micro now - to_micro t0))
            | None => (None, total_paused state)
            end in
          (mkState (running state) false (restart_requested state)
                   (quit_requested state) (awaiting_confirm state) ps tp,
           [Line (PyStr.nl ++ "Resumed" ++ PyStr.nl)])
        else
          (mkState (running state) true (restart_requested state)
                   (quit_requested state) (awaiting_confirm state) (Some now)
                   (total_paused state),
           [Line (PyStr.nl ++ "Paused" ++ PyStr.nl)])
      else if char_is char "q" then
        (mkState (running state) (paused state) (restart_requested state)
                 (quit_requested state) (Some ConfirmQuit) (pause_start state)
                 (total_paused state),
         [Line (PyStr.nl ++ "Quit? (y/n): ")])
      else (state, [])
  end.

(** ** [run_timer] *)

(** The file [OUTPUT.txt] and the console, latest line first. *)
Record world : Type := mkWorld {
  output_file : string;
  writes : list string;
  console : list out_line
}.

(** [write_output(text)]: the file is overwritten; [writes] keeps every
    text written, latest first. *)
Definition write_output (text : string) (w : world) : world :=
  mkWorld text (text :: writes w) (console w).

Definition print (l : out_line) (w : world) : world :=
  mkWorld (output_file w) (writes w) (l :: console w).

Definition print_all (ls : list out_line) (w : world) : world :=
  fold_left (fun w l => print l w) ls w.

(** The anchor times a cycle computes: [target_time] in mode 0, [duration]
    and [start_time] in mode 1, [start_time] in mode 2. *)
Inductive anchors : Type :=
| ToTarget (target_time : Z)
| FromDuration (duration : Z) (start_time : datetime)
| CountUp (start_time : datetime).

(** Lines 163-166: the reset at the top of the outer loop's body. *)
Definition cycle_reset (state : TimerState) : TimerState :=
  mkState (running state) false false (quit_requested state)
          (awaiting_confirm state) None 0.

(** Lines 169-180: the anchors of the cycle. *)
Definition cycle_anchors (mode : Z) (time_str : string)
  (date_str : option string) (now : datetime) : result anchors :=
  if mode =? 0 then
    target_date <- parse_date date_str now ;;
    time_seconds <- parse_time time_str ;;
    target_time <- add_seconds target_date time_seconds ;;
    Ok (ToTarget target_time)
  else if mode =? 1 then
    duration <- parse_time time_str ;;
    Ok (FromDuration duration now)
  else Ok (CountUp now).

(** [int(x)] of a float of seconds, on microseconds: towards zero. *)
Definition int_seconds (micro : Z) : Z := Z.quot micro 1000000.

(** What one pass through the body of the inner loop does. *)
Inductive tick_result : Type :=
| Skipped                              (* paused: sleep and continue *)
| Published (value : Z) (output : string)  (* the value computed, the text written *)
| TimeUp (value : Z)                   (* remaining <= 0: break *)
| Faulted (e : exn).                   (* the arithmetic raised *)

(** [float(n)] raises [OverflowError]: [n] rounds to [2**1024] or beyond.
    This is what [duration - elapsed], an [int] minus a [float], does
    first. *)
Definition float_overflow (n : Z) : bool :=
  2 ^ 1024 - 2 ^ 970 <=? Z.abs n.

(** Lines 185-213: the value computed at a tick, in microseconds
    ([remaining] in modes 0 and 1, [elapsed] in mode 2), and what becomes of
    it. *)
Definition inner_tick (a : anchors) (display : Z) (state : TimerState)
  (now : datetime) : tick_result :=
  match a with
  | ToTarget target_time =>
      let remaining := target_time - to_micro now in
      let display_seconds := Z.max 0 (int_seconds remaining) in
      if remaining <=? 0 then TimeUp remaining
      else Published remaining (format_time display_seconds display)
  | FromDuration duration start_time =>
      if paused state then Skipped
      else
        let elapsed := (to_micro now - to_micro start_time) - total_paused state in
        if float_overflow duration then
          Faulted (OverflowError FloatConversion)
        else
        let remaining := duration * 1000000 - elapsed in
        let display_seconds := Z.max 0 (int_seconds remaining) in
        if remaining <=? 0 then TimeUp remaining
        else Published remaining (format_time display_seconds display)
  | CountUp start_time =>
      if paused state then Skipped
      else
        let elapsed := (to_micro now - to_micro start_time) - total_paused state in
        let display_seconds := int_seconds elapsed in
        Published elapsed (format_time display_seconds display)
  end.

(** Where the main thread stands between two steps. *)
Inductive pc : Type :=
| AtOuter                     (* line 162: [while state.running] *)
| AtInner (a : anchors)       (* line 184: the inner [while] *)
| AfterInner                  (* line 219: after the inner loop *)
| Returned                    (* [run_timer] has returned *)
| Raised (e : exn).           (* an exception left [run_timer] *)

Record config : Type := mkConfig {
  at_pc : pc;
  state : TimerState;
  the_world : world
}.

Definition set_running (b : bool) (s : TimerState) : TimerState :=
  mkState b (paused s) (restart_requested s) (quit_requested s)
          (awaiting_confirm s) (pause_start s) (total_paused s).

(** What happens around the program while it runs: the listener's thread
    receives a key, the main thread makes its next step (reading the clock
    as [now] where it reads it), or the user interrupts the process. *)
Inductive event : Type :=
| KeyPress (k : key) (now : datetime)
| MainStep (now : datetime)
| Interrupt.

Section Run.

(** The arguments of [run_timer], and whether [pynput] was imported. *)
Variables (HAS_PYNPUT : bool) (mode : Z) (time_str : string)
          (date_str : option string) (display : Z).

(** Lines 151-160. *)
Definition run_start (w : world) : config :=
  mkConfig AtOuter TimerState_init
    (print (Line (if HAS_PYNPUT
                  then "Keys: [r]estart, [p]ause, [q]uit" ++ PyStr.nl
                  else "Warning: pynput not installed, keyboard controls disabled"
                       ++ PyStr.nl)) w).

(** One step of the main thread. *)
Definition main_step (c : config) (now : datetime) : config :=
  let s := state c in
  let w := the_world c in
  match at_pc c with
  | AtOuter =>
      if running s then
        let s := cycle_reset s in
        match cycle_anchors mode time_str date_str now with
        | Raise e => mkConfig (Raised e) s w
        | Ok a =>
            mkConfig (AtInner a) s
              (print (Line ("Timer started (Mode " ++ PyStr.str mode ++ ")"
                            ++ PyStr.nl)) w)
        end
      else
        mkConfig Returned s (print (Line ("Timer stopped." ++ PyStr.nl)) w)
  | AtInner a =>
      if negb (quit_requested s) && negb (restart_requested s) then
        match inner_tick a display s now with
        | Skipped => c
        | TimeUp _ =>
            mkConfig AfterInner (set_running false s)
              (print (Line (PyStr.nl ++ "Time's up!" ++ PyStr.nl))
                 (write_output (format_time 0 display) w))
        | Published _ output =>
            mkConfig (AtInner a) s
              (print (Line (PyStr.cr ++ output ++ "    "))
                 (write_output output w))
        | Faulted e => mkConfig (Raised e) s w
        end
      else mkConfig AfterInner s w
  | AfterInner =>
      let '(s, w) :=
        if quit_requested s
        then (set_running false s,
              print (Line (PyStr.nl ++ "Exiting..." ++ PyStr.nl)) w)
        else (s, w) in
      let w :=
        if restart_requested s
        then print (Line (PyStr.nl ++ "Restarting..." ++ PyStr.nl)) w
        else w in
      mkConfig AtOuter s w
  | Returned => c
  | Raised _ => c
  end.

Definition live (p : pc) : bool :=
  match p with
  | Returned | Raised _ => false
  | _ => true
  end.

Definition step (c : config) (e : event) : config :=
  match e with
  | MainStep now => main_step c now
  | KeyPress k now =>
      if HAS_PYNPUT && live (at_pc c) then
        let '(s, out) := on_press (state c) k now in
        mkConfig (at_pc c) s (print_all out (the_world c))
      else c
  | Interrupt =>
      if live (at_pc c)
      then mkConfig (Raised KeyboardInterrupt) (state c) (the_world c)
      else c
  end.

(** [run_timer] along a sequence of events. *)
Definition run_timer (w : world) (evs : list event) : config :=
  fold_left step evs (run_start w).

(** Lines 348-355 of [main]: the process's exit status once [run_timer]
    has returned or raised, [None] while it still runs. *)
Definition main (w : world) (evs : list event) : world * option Z :=
  let c := run_timer w evs in
  match at_pc c with
  | Returned => (the_world c, Some 0)
  | Raised KeyboardInterrupt =>
      (write_output ""
         (print (Line (PyStr.nl ++ "Interrupted by user" ++ PyStr.nl))
            (the_world c)),
       Some 0)
  | Raised e =>
      (print (ErrorReport e) (the_world c), Some 1)
  | _ => (the_world c, None)
  end.

End Run.

(** ** [show_tui] and the start of [main] *)

(** What the prompt sequence puts on the console: [print(text)], the
    prompt of [input(prompt)], or the report [Invalid time format: e] of a
    refused time. *)
Inductive tui_line : Type :=
| Say (text : string)
| Ask (prompt : string)
| InvalidTime (e : exn).

(** What one of the prompt loops ends with: a value and the lines of input
    left, the end of the input ([input()] raises [EOFError]), or an
    exception that no handler of the loop catches. *)
Inductive asked (A : Type) : Type :=
| Got (a : A) (rest : list string)
| Eof
| Failed (e : exn).
Arguments Got {A} a rest.
Arguments Eof {A}.
Arguments Failed {A} e.

(** [s * n]. *)
Fixpoint str_repeat (s : string) (n : nat) : string :=
  match n with
  | O => EmptyString
  | S n' => s ++ str_repeat s n'
  end.

(** Lines 243-250: the loop that asks for the mode.  [inputs] are the lines
    the user types, in order. *)
Fixpoint ask_mode (inputs : list string) : asked Z * list tui_line :=
  match inputs with
  | [] => (Eof, [Ask "Mode [0/1/2]: "])
  | l :: rest =>
      match PyStr.int (PyStr.strip l) with
      | Ok mode =>
          if (mode =? 0) || (mode =? 1) || (mode =? 2) then
            (Got mode rest, [Ask "Mode [0/1/2]: "])
          else
            let '(r, out) := ask_mode rest in
            (r, Ask "Mode [0/1/2]: "
                :: Say "Invalid mode. Please enter 0, 1, or 2." :: out)
      | Raise (ValueError _) =>
          let '(r, out) := ask_mode rest in
          (r, Ask "Mode [0/1/2]: "
              :: Say "Invalid input. Please enter a number." :: out)
      | Raise e => (Failed e, [Ask "Mode [0/1/2]: "])
      end
  end.

(** Lines 263-269: the loop that asks for the time. *)
Fixpoint ask_time (inputs : list string) : asked string * list tui_line :=
  match inputs with
  | [] => (Eof, [Ask "Time: "])
  | l :: rest =>
      let time_str := PyStr.strip l in
      match parse_time time_str with
      | Ok _ => (Got time_str rest, [Ask "Time: "])
      | Raise (ValueError o) =>
          let '(r, out) := ask_time rest in
          (r, Ask "Time: " :: InvalidTime (ValueError o) :: out)
      | Raise e => (Failed e, [Ask "Time: "])
      end
  end.

(** Lines 284-292: the loop that asks for the display format. *)
Fixpoint ask_display (inputs : list string) : asked Z * list tui_line :=
  match inputs with
  | [] => (Eof, [Ask "Display [0/1/2, default=0]: "])
  | l :: rest =>
      let display_input := PyStr.strip l in
      match (if String.eqb display_input "" then Ok 0
             else PyStr.int display_input) with
      | Ok display =>
          if (display =? 0) || (display =? 1) || (display =? 2) then
            (Got display rest, [Ask "Display [0/1/2, default=0]: "])
          else
            let '(r, out) := ask_display rest in
            (r, Ask "Display [0/1/2, default=0]: "
                :: Say "Invalid display mode. Please enter 0, 1, or 2." :: out)
      | Raise (ValueError _) =>
          let '(r, out) := ask_display rest in
          (r, Ask "Display [0/1/2, default=0]: "
              :: Say "Invalid input. Please enter a number." :: out)
      | Raise e => (Failed e, [Ask "Display [0/1/2, default=0]: "])
      end
  end.

(** Lines 276: [input("Date [empty=today]: ").strip() or None]. *)
Definition ask_date (inputs : list string) : asked (option string) * list tui_line :=
  match inputs with
  | [] => (Eof, [Ask "Date [empty=today]: "])
  | l :: rest =>
      let d := PyStr.strip l in
      (Got (if String.eqb d "" then None else Some d) rest,
       [Ask "Date [empty=today]: "])
  end.

(** How [show_tui] ends: with the four parameters (and the input left), at
    the end of the input, or with an uncaught exception. *)
Inductive tui_result : Type :=
| TuiDone (mode : Z) (time_str : string) (date_str : option string)
          (display : Z) (rest : list string) (out : list tui_line)
| TuiEof (out : list tui_line)
| TuiFailed (e : exn) (out : list tui_line).

Definition show_tui (inputs : list string) : tui_result :=
  let out :=
    [Say (str_repeat "=" 40); Say "  OBS Countdown Timer";
     Say (str_repeat "=" 40); Say "";
     Say "Select mode:";
     Say "  0 - Countdown to specific time point";
     Say "  1 - Countdown from duration";
     Say "  2 - Count up from now"] in
  match ask_mode inputs with
  | (Eof, o) => TuiEof (out ++ o)%list
  | (Failed e, o) => TuiFailed e (out ++ o)%list
  | (Got mode inputs, o) =>
      let out := (out ++ o ++
        [Say "";
         Say (if mode =? 0 then
                "Enter target time (format: ss, mm:ss, or hh:mm:ss):"
              else if mode =? 1 then
                "Enter countdown duration (format: ss, mm:ss, or hh:mm:ss):"
              else "Count up mode - time parameter not needed")])%list in
      match (if negb (mode =? 2) then ask_time inputs
             else (Got "0" inputs, [])) with
      | (Eof, o) => TuiEof (out ++ o)%list
      | (Failed e, o) => TuiFailed e (out ++ o)%list
      | (Got time_str inputs, o) =>
          let out := (out ++ o)%list in
          match (if mode =? 0 then
                   let '(r, o) := ask_date inputs in
                   (r, ([Say "";
                         Say "Enter target date (format: mm/dd or yyyy/mm/dd, leave empty for today):"]
                        ++ o)%list)
                 else (Got None inputs, [])) with
          | (Eof, o) => TuiEof (out ++ o)%list
          | (Failed e, o) => TuiFailed e (out ++ o)%list
          | (Got date_str inputs, o) =>
              let out := (out ++ o ++
                [Say ""; Say "Select display format:";
                 Say "  0 - Shortest (4:03)";
                 Say "  1 - Short with padding (04:03)";
                 Say "  2 - Full format (00:04:03)"])%list in
              match ask_display inputs with
              | (Eof, o) => TuiEof (out ++ o)%list
              | (Failed e, o) => TuiFailed e (out ++ o)%list
              | (Got display inputs, o) =>
                  TuiDone mode time_str date_str display inputs (out ++ o)%list
              end
          end
      end
  end.

(** The arguments as [parse_args] returns them: [--mode] and [--format]
    are among 0, 1 and 2 when given, [--format] is 0 when not given. *)
Record cli_args : Type := mkArgs {
  arg_mode : option Z;
  arg_time : option string;
  arg_date : option string;
  arg_display : Z
}.

(** Lines 330-355, [main] as a whole: the lines of the prompt sequence, the
    world at the end and the exit status.  An exception that nothing
    catches ends the process with status 1. *)
Definition main_entry (HAS_PYNPUT : bool) (args : cli_args)
  (inputs : list string) (w : world) (evs : list event)
  : list tui_line * world * option Z :=
  match arg_mode args, arg_time args with
  | Some mode, Some time_str =>
      let '(w', status) :=
        main HAS_PYNPUT mode time_str (arg_date args) (arg_display args)
          (print (Line PyStr.nl) w) evs in
      ([], w', status)
  | None, None =>
      match show_tui inputs with
      | TuiDone mode time_str date_str display _ out =>
          let '(w', status) :=
            main HAS_PYNPUT mode time_str date_str display
              (print (Line PyStr.nl) w) evs in
          (out, w', status)
      | TuiEof out => (out, w, Some 1)
      | TuiFailed _ out => (out, w, Some 1)
      end
  | _, _ =>
      ([],
       print (Line ("Error: Both --mode and --time are required for CLI mode"
                    ++ PyStr.nl)) w,
       Some 1)
  end.

(** * Notions used by the statements *)

(** The two decimal digits of a number below 100. *)
Definition two_digits (n : Z) : string :=
  String (PyStr.digit_char (n / 10)) (String (PyStr.digit_char (n mod 10)) "").

(** The shape [HH:MM:SS]: eight characters, digits around two colons. *)
Definition hhmmss_shape (s : string) : bool :=
  match s with
  | String h1 (String h2 (String c1 (String m1 (String m2
      (String c2 (String s1 (String s2 EmptyString))))))) =>
      PyStr.is_digit h1 && PyStr.is_digit h2 && Ascii.eqb c1 PyStr.colon &&
      PyStr.is_digit m1 && PyStr.is_digit m2 && Ascii.eqb c2 PyStr.colon &&
      PyStr.is_digit s1 && PyStr.is_digit s2
  | _ => false
  end.

(** The fields of a formatted time: the parts between the colons. *)
Definition fields (s : string) : list string := PyStr.split PyStr.colon s.

(** The first character of [s] is the digit zero. *)
Definition leading_zero (s : string) : bool :=
  match s with
  | String c _ => Ascii.eqb c "0"
  | EmptyString => false
  end.

(** [r] is a failure of the kind [k]. *)
Definition fails_with {A : Type} (k : error_kind) (r : result A) : Prop :=
  exists e, r = Raise e /\ kind_of e = k.

(** A character of the text of an integer: a digit or the minus sign. *)
Definition is_int_char (c : ascii) : bool :=
  PyStr.is_digit c || Ascii.eqb c "-".

(** [y]-[m]-[d] is a date of the calendar [datetime] supports. *)
Definition calendar_valid (y m d : Z) : Prop :=
  MINYEAR <= y <= MAXYEAR /\ 1 <= m <= 12 /\ 1 <= d <= days_in_month y m.

(** The date [y]-[m]-[d] at 00:00:00. *)
Definition at_midnight (y m d : Z) : datetime := DT.mk y m d 0 0 0 0.

(** The invariant of the pause fields: [pause_start] is set exactly while
    [paused] holds. *)
Definition pause_inv (s : TimerState) : Prop :=
  pause_start s <> None <-> paused s = true.

(** The key toggles the pause. *)
Definition is_pause_key (k : key) : bool := char_is (key_char k) "p".

(** The events without the presses of the pause key. *)
Definition erase_pause (evs : list event) : list event :=
  filter (fun e => match e with
                   | KeyPress k _ => negb (is_pause_key k)
                   | _ => true
                   end) evs.

(** Two states that differ in the pause fields at most. *)
Definition same_but_pause (s1 s2 : TimerState) : Prop :=
  running s1 = running s2 /\ restart_requested s1 = restart_requested s2 /\
  quit_requested s1 = quit_requested s2 /\
  awaiting_confirm s1 = awaiting_confirm s2.

(** What the body of the inner loop computes when the main thread makes the
    step [e] from [c]: [None] when the step is no pass through the body. *)
Definition observe (display : Z) (c : config) (e : event) : option tick_result :=
  match e, at_pc c with
  | MainStep now, AtInner a =>
      if negb (quit_requested (state c)) && negb (restart_requested (state c))
      then Some (inner_tick a display (state c) now)
      else None
  | _, _ => None
  end.

(** The passes through the body of the inner loop along a run, in order. *)
Fixpoint ticks (HAS_PYNPUT : bool) (mode : Z) (time_str : string)
  (date_str : option string) (display : Z) (c : config) (evs : list event)
  : list tick_result :=
  match evs with
  | [] => []
  | e :: evs' =>
      match observe display c e with
      | Some r => [r]
      | None => []
      end ++ ticks HAS_PYNPUT mode time_str date_str display
               (step HAS_PYNPUT mode time_str date_str display c e) evs'
  end.

(** The value a tick computed, if it computed one. *)
Definition tick_value (r : tick_result) : option Z :=
  match r with
  | Skipped => None
  | Published v _ => Some v
  | TimeUp v => Some v
  | Faulted _ => None
  end.

(** Two configurations of a run in mode 0 that differ in the pause fields
    and in the console at most. *)
Definition same_but_pause_config (c1 c2 : config) : Prop :=
  at_pc c1 = at_pc c2
  /\ (forall a, at_pc c1 = AtInner a -> exists t, a = ToTarget t)
  /\ same_but_pause (state c1) (state c2)
  /\ output_file (the_world c1) = output_file (the_world c2)
  /\ writes (the_world c1) = writes (the_world c2).

(** A run that pauses, resumes and pauses again between the ticks. *)
Definition paused_run : list event :=
  [MainStep (DT.mk 2026 11 3 10 0 0 0);
   KeyPress (KeyCode (Some "p")) (DT.mk 2026 11 3 10 0 0 50000);
   MainStep (DT.mk 2026 11 3 10 0 0 100000);
   KeyPress (KeyCode (Some "P")) (DT.mk 2026 11 3 10 0 0 150000);
   KeyPress (KeyCode (Some "p")) (DT.mk 2026 11 3 10 0 0 180000);
   MainStep (DT.mk 2026 11 3 10 0 1 200000)].

(** The same run with no key pressed. *)
Definition unpaused_run : list event :=
  [MainStep (DT.mk 2026 11 3 10 0 0 0);
   MainStep (DT.mk 2026 11 3 10 0 0 100000);
   MainStep (DT.mk 2026 11 3 10 0 1 200000)].

(** The event is a key press. *)
Definition is_key_press (e : event) : bool :=
  match e with
  | KeyPress _ _ => true
  | _ => false
  end.

(** The event is a step of the main thread. *)
Definition is_main_step (e : event) : bool :=
  match e with
  | MainStep _ => true
  | _ => false
  end.

Definition is_interrupt (e : event) : bool :=
  match e with
  | Interrupt => true
  | _ => false
  end.

(** The number of steps of the main thread among the events. *)
Definition count_main (evs : list event) : nat :=
  List.length (filter is_main_step evs).

(** The text is a time formatted for the display mode. *)
Definition formatted (display : Z) (s : string) : Prop :=
  exists v, 0 <= v /\ s = format_time v display.

(** How many steps the main thread needs from [p] to return once the
    outer loop is to end. *)
Definition steps_to_return (p : pc) : nat :=
  match p with
  | AtInner _ => 3
  | AfterInner => 2
  | AtOuter => 1
  | Returned => 0
  | Raised _ => 0
  end.

(** The parameters and the input left, without the console. *)
Definition tui_config (r : tui_result)
  : option (Z * string * option string * Z * list string) :=
  match r with
  | TuiDone mode time_str date_str display rest _ =>
      Some (mode, time_str, date_str, display, rest)
  | _ => None
  end.

(** The outer loop is about to end: a quit is requested, or [running] is
    already false and the inner loop has been left. *)
Definition ending (c : config) : Prop :=
  match at_pc c with
  | AtInner _ => quit_requested (state c) = true
  | AfterInner => running (state c) = false \/ quit_requested (state c) = true
  | AtOuter => running (state c) = false
  | Returned => True
  | Raised _ => False
  end.

(** No event of the list is an interrupt. *)
Definition no_interrupt (evs : list event) : bool :=
  forallb (fun e => negb (is_interrupt e)) evs.


(** ** Runs used as examples *)

(** The separator characters FS and GS, chr(28) and chr(29). *)
Definition chr_fs : string := String (ascii_of_nat 28) "".
Definition chr_gs : string := String (ascii_of_nat 29) "".


(** The clock readings of the examples. *)
Definition nov3_10h : datetime := DT.mk 2026 11 3 10 0 0 0.

(** An [OUTPUT.txt] left by an earlier run, and an empty console. *)
Definition world0 : world := mkWorld "0" [] [].

(** A countdown to 29 February plus 9000 hours, started in the last
    seconds of 2024 and restarted in 2025: the date is parsed again, and
    2025 has no 29 February. *)
Definition new_year_run : list event :=
  [MainStep (DT.mk 2024 12 31 23 59 50 0);
   MainStep (DT.mk 2024 12 31 23 59 50 100000);
   KeyPress (KeyCode (Some "r")) (DT.mk 2024 12 31 23 59 55 0);
   KeyPress (KeyCode (Some "y")) (DT.mk 2024 12 31 23 59 58 0);
   MainStep (DT.mk 2024 12 31 23 59 58 100000);
   MainStep (DT.mk 2024 12 31 23 59 58 100000);
   MainStep (DT.mk 2025 1 1 0 0 5 0)].

(** * Facts about the string library *)

Module PyStrFacts.
Import PyStr.

Lemma length_app (s t : string) :
  String.length (s ++ t) = (String.length s + String.length t)%nat.
Proof. induction s as [|c s IH]; simpl; [reflexivity | now rewrite IH]. Qed.

Lemma digit_range (d : Z) :
  0 <= d < 10 ->
  d = 0 \/ d = 1 \/ d = 2 \/ d = 3 \/ d = 4 \/ d = 5 \/ d = 6 \/ d = 7 \/
  d = 8 \/ d = 9.
Proof. lia. Qed.

Ltac each_digit d H :=
  destruct (digit_range d H) as
    [->|[->|[->|[->|[->|[->|[->|[->|[->| ->]]]]]]]]].

Lemma digit_char_is_digit d : 0 <= d < 10 -> is_digit (digit_char d) = true.
Proof. intros H; each_digit d H; reflexivity. Qed.

Lemma digit_char_val d : 0 <= d < 10 -> digit_val (digit_char d) = d.
Proof. intros H; each_digit d H; reflexivity. Qed.

Lemma is_digit_not_space c : is_digit c = true -> is_space c = false.
Proof.
  unfold is_digit, is_space; intros H.
  apply andb_true_iff in H as [H1 H2].
  apply Nat.leb_le in H1, H2.
  apply orb_false_iff; split; apply andb_false_iff.
  - right; apply Nat.leb_gt; lia.
  - right; apply Nat.leb_gt; lia.
Qed.

(** A digit is none of the characters [: / - + _]. *)
Lemma is_digit_neq c (k : nat) :
  is_digit c = true -> (k < 48 \/ 57 < k)%nat -> k = nat_of_ascii (ascii_of_nat k) ->
  Ascii.eqb c (ascii_of_nat k) = false.
Proof.
  unfold is_digit; intros H Hk Hemb.
  apply andb_true_iff in H as [H1 H2].
  apply Nat.leb_le in H1, H2.
  apply Ascii.eqb_neq; intros ->; lia.
Qed.

(** *** Decimal digits *)

Lemma log2_div10 n : 10 <= n -> Z.log2 (n / 10) < Z.log2 n.
Proof.
  intros H.
  assert (0 < n / 10) by (apply Z.div_str_pos; lia).
  assert (2 * (n / 10) <= n).
  { pose proof (Z.mul_div_le n 10 ltac:(lia)); lia. }
  pose proof (Z.log2_double (n / 10) ltac:(lia)) as Hd.
  pose proof (Z.log2_le_mono (2 * (n / 10)) n ltac:(lia)).
  lia.
Qed.

Lemma dec_digits_enough f : forall n f',
  0 <= n -> Z.log2 n < Z.of_nat f -> Z.log2 n < Z.of_nat f' ->
  dec_digits f n = dec_digits f' n.
Proof.
  induction f as [|f IH]; intros n f' Hn Hf Hf'.
  - pose proof (Z.log2_nonneg n); lia.
  - destruct f' as [|f']; [pose proof (Z.log2_nonneg n); lia|].
    simpl. destruct (n <? 10) eqn:E; [reflexivity|].
    apply Z.ltb_ge in E.
    pose proof (log2_div10 n E).
    rewrite (IH (n / 10) f'); try lia; [reflexivity|].
    apply Z.div_pos; lia.
Qed.

Lemma str_nonneg_small n : n < 10 -> str_nonneg n = String (digit_char n) "".
Proof.
  intros H. unfold str_nonneg. simpl.
  apply Z.ltb_lt in H. now rewrite H.
Qed.

Lemma str_nonneg_step n :
  10 <= n ->
  str_nonneg n = str_nonneg (n / 10) ++ String (digit_char (n mod 10)) "".
Proof.
  intros H. unfold str_nonneg at 1. simpl.
  apply Z.ltb_ge in H as E. rewrite E. f_equal.
  unfold str_nonneg.
  pose proof (log2_div10 n H).
  pose proof (Z.log2_nonneg (n / 10)).
  pose proof (Z.log2_nonneg n).
  apply dec_digits_enough; try lia.
  apply Z.div_pos; lia.
Qed.

Lemma str_nonneg_two n :
  10 <= n < 100 ->
  str_nonneg n = String (digit_char (n / 10)) (String (digit_char (n mod 10)) "").
Proof.
  intros H. rewrite str_nonneg_step by lia.
  rewrite str_nonneg_small; [reflexivity|].
  apply Z.div_lt_upper_bound; lia.
Qed.

Lemma str_nonneg_length_pos n : (1 <= String.length (str_nonneg n))%nat.
Proof.
  unfold str_nonneg. simpl. destruct (n <? 10); simpl; [lia|].
  rewrite length_app. simpl. lia.
Qed.

Lemma str_nonneg_length_3 n : 100 <= n -> (3 <= String.length (str_nonneg n))%nat.
Proof.
  intros H.
  rewrite str_nonneg_step by lia.
  assert (10 <= n / 10) by (apply Z.div_le_lower_bound; lia).
  rewrite (str_nonneg_step (n / 10)) by lia.
  rewrite !length_app. simpl.
  pose proof (str_nonneg_length_pos (n / 10 / 10)). lia.
Qed.

(** [f"{n:02d}"] of a number below 100 is its two digits. *)
Lemma fmt_02d_two n :
  0 <= n < 100 ->
  fmt_02d n = String (digit_char (n / 10)) (String (digit_char (n mod 10)) "").
Proof.
  intros H. unfold fmt_02d.
  assert (E : (n <? 0) = false) by (apply Z.ltb_ge; lia).
  rewrite E, Z.abs_eq by lia. cbn [append].
  destruct (Z_lt_ge_dec n 10) as [L|G].
  - rewrite str_nonneg_small by lia. simpl.
    rewrite Z.div_small, Z.mod_small by lia. reflexivity.
  - rewrite str_nonneg_two by lia. reflexivity.
Qed.

(** From 100 on nothing is padded. *)
Lemma fmt_02d_wide n : 100 <= n -> fmt_02d n = str_nonneg n.
Proof.
  intros H. unfold fmt_02d.
  assert (E : (n <? 0) = false) by (apply Z.ltb_ge; lia).
  rewrite E, Z.abs_eq by lia. cbn [append String.length].
  pose proof (str_nonneg_length_3 n H).
  replace (2 - 0 - String.length (str_nonneg n))%nat with 0%nat by lia.
  reflexivity.
Qed.

Lemma str_nonneg_eq n : 0 <= n -> str n = str_nonneg n.
Proof. intros H. unfold str. apply Z.ltb_ge in H. now rewrite H. Qed.

End PyStrFacts.

(** * [format_time] *)

Section FormatTime.
Import PyStr PyStrFacts.

(** The three numbers [format_time] prints. *)
Lemma hms_bounds x :
  0 <= x ->
  0 <= x / 3600 /\ 0 <= x mod 3600 / 60 < 60 /\ 0 <= x mod 60 < 60.
Proof.
  intros H. repeat split.
  - apply Z.div_pos; lia.
  - apply Z.div_pos; [apply Z.mod_pos_bound|]; lia.
  - apply Z.div_lt_upper_bound; [lia|].
    pose proof (Z.mod_pos_bound x 3600); lia.
  - apply Z.mod_pos_bound; lia.
  - apply Z.mod_pos_bound; lia.
Qed.

Lemma two_digits_fmt n : 0 <= n < 100 -> fmt_02d n = two_digits n.
Proof. apply fmt_02d_two. Qed.

Lemma two_digits_are_digits n :
  0 <= n < 100 ->
  is_digit (digit_char (n / 10)) = true /\ is_digit (digit_char (n mod 10)) = true.
Proof.
  intros H; split; apply digit_char_is_digit.
  - split; [apply Z.div_pos; lia | apply Z.div_lt_upper_bound; lia].
  - apply Z.mod_pos_bound; lia.
Qed.

Lemma format_time_mode2 x :
  0 <= x ->
  format_time x 2 =
    fmt_02d (x / 3600) ++ ":" ++ fmt_02d (x mod 3600 / 60) ++ ":" ++ fmt_02d (x mod 60).
Proof.
  intros H. unfold format_time.
  assert (E : (x <? 0) = false) by (apply Z.ltb_ge; lia).
  rewrite E. reflexivity.
Qed.

(** C1, found false as stated: one hundred hours take three digits, so
    [format_time 360000 2] is ["100:00:00"], nine characters long and not
    of the shape [HH:MM:SS]. *)
Lemma format_time_mode2_not_always_8 :
  0 <= 360000 /\ format_time 360000 2 = "100:00:00" /\
  String.length (format_time 360000 2) = 9%nat /\
  hhmmss_shape (format_time 360000 2) = false.
Proof. repeat split; try reflexivity; lia. Qed.

(** C1, amended: for every [0 <= x < 360000] (less than one hundred
    hours) [format_time x 2] is the eight characters [HH:MM:SS], each
    field being the two decimal digits of the hours, the minutes and the
    seconds; from [360000] on the string is longer than eight
    characters. *)
Theorem format_time_mode2_width (x : Z) :
  0 <= x ->
  (x < 360000 ->
     format_time x 2 =
       two_digits (x / 3600) ++ ":" ++ two_digits (x mod 3600 / 60) ++ ":"
         ++ two_digits (x mod 60)
     /\ String.length (format_time x 2) = 8%nat
     /\ hhmmss_shape (format_time x 2) = true)
  /\ (360000 <= x -> (8 < String.length (format_time x 2))%nat).
Proof.
  intros H0. destruct (hms_bounds x H0) as (Hh & Hm & Hs).
  rewrite format_time_mode2 by exact H0. split.
  - intros Hlt.
    assert (Hh' : 0 <= x / 3600 < 100).
    { split; [exact Hh | apply Z.div_lt_upper_bound; lia]. }
    rewrite !two_digits_fmt by lia.
    split; [reflexivity|]. split; [reflexivity|].
    unfold two_digits. cbn [append hhmmss_shape].
    destruct (two_digits_are_digits _ Hh') as [-> ->].
    destruct (two_digits_are_digits (x mod 3600 / 60) ltac:(lia)) as [-> ->].
    destruct (two_digits_are_digits (x mod 60) ltac:(lia)) as [-> ->].
    reflexivity.
  - intros Hge.
    assert (100 <= x / 3600) by (apply Z.div_le_lower_bound; lia).
    rewrite fmt_02d_wide by lia.
    rewrite !two_digits_fmt by lia.
    rewrite length_app.
    pose proof (str_nonneg_length_3 (x / 3600) ltac:(lia)).
    unfold two_digits. cbn [append String.length]. lia.
Qed.

Lemma format_time_mode2_width_witness :
  (format_time 3725 2 = "01:02:05"
   /\ String.length (format_time 3725 2) = 8%nat
   /\ hhmmss_shape (format_time 3725 2) = true).
Proof.
  apply (proj1 (format_time_mode2_width 3725 ltac:(lia))). lia.
Defined.

End FormatTime.


(** * Splitting and the text of numbers *)

Module SplitFacts.
Import PyStr PyStrFacts.

Lemma all_chars_app p s t :
  all_chars p (s ++ t) = all_chars p s && all_chars p t.
Proof.
  induction s as [|c s IH]; simpl; [reflexivity|].
  now rewrite IH, andb_assoc.
Qed.

Lemma all_chars_impl (p q : ascii -> bool) s :
  (forall c, p c = true -> q c = true) ->
  all_chars p s = true -> all_chars q s = true.
Proof.
  intros Hpq. induction s as [|c s IH]; simpl; [reflexivity|].
  intros H. apply andb_true_iff in H as [H1 H2].
  now rewrite (Hpq c H1), (IH H2).
Qed.

(** A text without the separator is a single part. *)
Lemma split_single sep s :
  all_chars (is_not sep) s = true -> split sep s = [s].
Proof.
  induction s as [|c s IH]; simpl; [reflexivity|].
  intros H. apply andb_true_iff in H as [H1 H2].
  unfold is_not in H1. apply negb_true_iff in H1.
  now rewrite H1, (IH H2).
Qed.

(** The first part ends at the first separator. *)
Lemma split_cons sep s rest :
  all_chars (is_not sep) s = true ->
  split sep (s ++ String sep rest) = s :: split sep rest.
Proof.
  induction s as [|c s IH]; simpl.
  - intros _. now rewrite Ascii.eqb_refl.
  - intros H. apply andb_true_iff in H as [H1 H2].
    unfold is_not in H1. apply negb_true_iff in H1.
    now rewrite H1, (IH H2).
Qed.


Lemma is_digit_not_colon c : is_digit c = true -> is_not colon c = true.
Proof.
  intros H. unfold is_not. apply negb_true_iff.
  apply (is_digit_neq c 58 H); [lia | reflexivity].
Qed.

Lemma dec_digits_all_digits f : forall n,
  0 <= n -> all_chars is_digit (dec_digits f n) = true.
Proof.
  induction f as [|f IH]; intros n Hn; cbn [dec_digits]; [reflexivity|].
  destruct (n <? 10) eqn:E.
  - apply Z.ltb_lt in E. cbn [all_chars].
    rewrite digit_char_is_digit by lia. reflexivity.
  - apply Z.ltb_ge in E. rewrite all_chars_app. cbn [all_chars].
    rewrite IH by (apply Z.div_pos; lia).
    rewrite digit_char_is_digit by (apply Z.mod_pos_bound; lia).
    reflexivity.
Qed.

Lemma str_nonneg_all_digits n :
  0 <= n -> all_chars is_digit (str_nonneg n) = true.
Proof. apply dec_digits_all_digits. Qed.

Lemma zeros_all_digits k : all_chars is_digit (zeros k) = true.
Proof. induction k as [|k IH]; simpl; [reflexivity | exact IH]. Qed.

Lemma fmt_02d_all_digits n :
  0 <= n -> all_chars is_digit (fmt_02d n) = true.
Proof.
  intros H. unfold fmt_02d.
  assert (E : (n <? 0) = false) by (apply Z.ltb_ge; lia).
  rewrite E, Z.abs_eq by lia. cbn [append].
  now rewrite all_chars_app, zeros_all_digits, str_nonneg_all_digits.
Qed.

Lemma digits_no_colon s :
  all_chars is_digit s = true -> all_chars (is_not colon) s = true.
Proof. apply all_chars_impl, is_digit_not_colon. Qed.

(** The first digit of a positive number is not zero. *)
Lemma dec_digits_head f : forall n,
  0 <= n -> Z.log2 n < Z.of_nat f ->
  exists d rest,
    0 <= d < 10 /\ (0 < n -> 1 <= d) /\
    dec_digits f n = String (digit_char d) rest.
Proof.
  induction f as [|f IH]; intros n Hn Hf.
  - pose proof (Z.log2_nonneg n); lia.
  - cbn [dec_digits]. destruct (n <? 10) eqn:E.
    + apply Z.ltb_lt in E. exists n, EmptyString. repeat split; lia.
    + apply Z.ltb_ge in E.
      pose proof (log2_div10 n E).
      assert (0 < n / 10) by (apply Z.div_str_pos; lia).
      destruct (IH (n / 10)) as (d & rest & Hd & Hpos & Heq); try lia.
      rewrite Heq. exists d, (rest ++ String (digit_char (n mod 10)) "").
      repeat split; lia.
Qed.

Lemma str_nonneg_head n :
  0 <= n ->
  exists d rest,
    0 <= d < 10 /\ (0 < n -> 1 <= d) /\ str_nonneg n = String (digit_char d) rest.
Proof.
  intros H. apply dec_digits_head; [exact H|].
  pose proof (Z.log2_nonneg n). lia.
Qed.

End SplitFacts.


(** * The hours field of [format_time] *)

Section HoursField.
Import PyStr PyStrFacts SplitFacts.

(** A negative argument is formatted as zero. *)
Lemma format_time_clamp x m : format_time x m = format_time (Z.max 0 x) m.
Proof.
  unfold format_time.
  destruct (x <? 0) eqn:E.
  - apply Z.ltb_lt in E. rewrite Z.max_l by lia. reflexivity.
  - apply Z.ltb_ge in E. rewrite Z.max_r by lia.
    apply Z.ltb_ge in E. rewrite E. reflexivity.
Qed.

Lemma fields_three a b c :
  all_chars is_digit a = true -> all_chars is_digit b = true ->
  all_chars is_digit c = true ->
  fields (a ++ ":" ++ b ++ ":" ++ c) = [a; b; c].
Proof.
  intros Ha Hb Hc. unfold fields. cbn [append].
  change (String ":" ?s) with (String colon s).
  rewrite split_cons by now apply digits_no_colon.
  rewrite split_cons by now apply digits_no_colon.
  rewrite split_single by now apply digits_no_colon.
  reflexivity.
Qed.

Lemma fields_two a b :
  all_chars is_digit a = true -> all_chars is_digit b = true ->
  fields (a ++ ":" ++ b) = [a; b].
Proof.
  intros Ha Hb. unfold fields. cbn [append].
  change (String ":" ?s) with (String colon s).
  rewrite split_cons by now apply digits_no_colon.
  rewrite split_single by now apply digits_no_colon.
  reflexivity.
Qed.

Lemma fields_one a : all_chars is_digit a = true -> fields a = [a].
Proof.
  intros Ha. unfold fields.
  now rewrite split_single by now apply digits_no_colon.
Qed.

Lemma str_all_digits n : 0 <= n -> all_chars is_digit (str n) = true.
Proof. intros H. rewrite str_nonneg_eq by exact H. now apply str_nonneg_all_digits. Qed.

Lemma str_no_leading_zero n : 0 < n -> leading_zero (str n) = false.
Proof.
  intros H. rewrite str_nonneg_eq by lia.
  destruct (str_nonneg_head n ltac:(lia)) as (d & rest & Hd & Hpos & ->).
  specialize (Hpos H). unfold leading_zero.
  each_digit d Hd; try reflexivity. lia.
Qed.

Lemma fmt_02d_one_digit n : 0 <= n < 10 -> fmt_02d n = String "0" (str n).
Proof.
  intros H. rewrite fmt_02d_two by lia.
  rewrite str_nonneg_eq, str_nonneg_small by lia.
  rewrite Z.div_small, Z.mod_small by lia. reflexivity.
Qed.

(** The text of [format_time] in modes 0 and 1 when there are hours. *)
Lemma format_time_short_hours t m :
  0 <= t -> m = 0 \/ m = 1 -> 0 < t / 3600 ->
  format_time t m =
    str (t / 3600) ++ ":" ++ fmt_02d (t mod 3600 / 60) ++ ":" ++ fmt_02d (t mod 60).
Proof.
  intros Ht Hm Hh. unfold format_time.
  assert (E : (t <? 0) = false) by (apply Z.ltb_ge; lia).
  assert (G : (t / 3600 >? 0) = true) by (apply Z.gtb_lt; lia).
  rewrite E, G. destruct Hm as [-> | ->]; reflexivity.
Qed.

(** C2, found false as stated: in mode 2 one hour is printed with the hours
    field ["01"], a zero before the text ["1"] of the number. *)
Lemma format_time_mode2_pads_hours :
  format_time 3600 2 = "01:00:00" /\
  fields (format_time 3600 2) = ["01"; "00"; "00"] /\
  str (3600 / 3600) = "1" /\
  leading_zero (hd "" (fields (format_time 3600 2))) = true.
Proof. repeat split; reflexivity. Qed.

(** C2, amended: with [h] the hours of the argument (a negative argument
    counts as zero), in display modes 0 and 1 the hours field is there
    exactly when [h > 0] and is then the plain text of [h], with no zero
    before it; in display mode 2 the hours field is always there and is
    padded with zeros to two digits, so one digit [h] is printed as ["0"]
    followed by that digit. *)
Theorem format_time_hours_field (x m : Z) :
  let t := Z.max 0 x in
  let h := t / 3600 in
  let mi := t mod 3600 / 60 in
  let se := t mod 60 in
  (m = 0 \/ m = 1 -> 0 < h ->
     fields (format_time x m) = [str h; fmt_02d mi; fmt_02d se]
     /\ leading_zero (str h) = false)
  /\ (m = 0 \/ m = 1 -> h = 0 ->
        (List.length (fields (format_time x m)) <= 2)%nat)
  /\ (m = 2 ->
        fields (format_time x m) = [fmt_02d h; fmt_02d mi; fmt_02d se]
        /\ (h < 10 -> fmt_02d h = String "0" (str h))).
Proof.
  intros t h mi se.
  assert (Ht : 0 <= t) by (unfold t; lia).
  destruct (hms_bounds t Ht) as (Hh & Hm & Hs).
  fold h mi se in Hh, Hm, Hs.
  rewrite format_time_clamp. fold t.
  split; [|split].
  - intros Hmode Hpos.
    rewrite format_time_short_hours by assumption. fold h mi se.
    split; [|now apply str_no_leading_zero].
    apply fields_three;
      [apply str_all_digits | apply fmt_02d_all_digits | apply fmt_02d_all_digits];
      lia.
  - intros Hmode Hzero. unfold format_time.
    assert (E : (t <? 0) = false) by (apply Z.ltb_ge; lia).
    rewrite E. fold h mi se. rewrite Hzero.
    assert (Hfs : all_chars is_digit (fmt_02d se) = true)
      by (apply fmt_02d_all_digits; lia).
    assert (Hss : all_chars is_digit (str se) = true)
      by (apply str_all_digits; lia).
    assert (Hfm : all_chars is_digit (fmt_02d mi) = true)
      by (apply fmt_02d_all_digits; lia).
    assert (Hsm : all_chars is_digit (str mi) = true)
      by (apply str_all_digits; lia).
    change (0 >? 0) with false. cbv iota.
    destruct Hmode as [-> | ->];
      [change (0 =? 0) with true
      |change (1 =? 0) with false; change (1 =? 1) with true];
      cbv iota; destruct (mi >? 0);
      rewrite ?fields_two, ?fields_one by assumption; simpl; lia.
  - intros ->. rewrite format_time_mode2 by exact Ht. fold h mi se.
    split; [|intros Hlt; apply fmt_02d_one_digit; lia].
    apply fields_three; apply fmt_02d_all_digits; lia.
Qed.

Lemma format_time_hours_field_witness :
  (fields (format_time 3725 0) = ["1"; "02"; "05"]
   /\ leading_zero (str (Z.max 0 3725 / 3600)) = false)
  /\ (fields (format_time 3725 2) = ["01"; "02"; "05"]
      /\ (Z.max 0 3725 / 3600 < 10 ->
          fmt_02d (Z.max 0 3725 / 3600) = String "0" (str (Z.max 0 3725 / 3600)))).
Proof.
  split.
  - apply (proj1 (format_time_hours_field 3725 0)); [left; reflexivity | reflexivity].
  - apply (proj2 (proj2 (format_time_hours_field 3725 2))). reflexivity.
Defined.

End HoursField.


(** * [int()] reads back what [str()] writes *)

Module IntFacts.
Import PyStr PyStrFacts SplitFacts.

Lemma parse_digits_snoc s : forall acc b v d,
  parse_digits s acc b = Some v -> 0 <= d < 10 ->
  parse_digits (s ++ String (digit_char d) "") acc b = Some (v * 10 + d).
Proof.
  induction s as [|c s IH]; intros acc b v d H Hd; cbn [append parse_digits] in *.
  - destruct b; [|discriminate]. injection H as <-.
    now rewrite digit_char_is_digit, digit_char_val by exact Hd.
  - destruct (is_digit c); [now apply IH|].
    destruct (Ascii.eqb c "_"); [|discriminate].
    destruct b; [now apply IH | discriminate].
Qed.

Lemma parse_dec_digits f : forall n,
  0 <= n -> Z.log2 n < Z.of_nat f ->
  parse_digits (dec_digits f n) 0 false = Some n.
Proof.
  induction f as [|f IH]; intros n Hn Hf.
  - pose proof (Z.log2_nonneg n); lia.
  - cbn [dec_digits]. destruct (n <? 10) eqn:E.
    + apply Z.ltb_lt in E. cbn [parse_digits].
      rewrite digit_char_is_digit, digit_char_val by lia. reflexivity.
    + apply Z.ltb_ge in E.
      pose proof (log2_div10 n E).
      assert (0 <= n / 10) by (apply Z.div_pos; lia).
      rewrite (parse_digits_snoc _ 0 false (n / 10) (n mod 10)).
      * f_equal. pose proof (Z.div_mod n 10 ltac:(lia)). lia.
      * apply IH; lia.
      * apply Z.mod_pos_bound; lia.
Qed.

Lemma parse_str_nonneg n :
  0 <= n -> parse_digits (str_nonneg n) 0 false = Some n.
Proof.
  intros H. apply parse_dec_digits; [exact H|].
  pose proof (Z.log2_nonneg n). lia.
Qed.

(** *** Nothing for [int()] to strip *)

Lemma int_space_is_space c : is_int_space c = true -> is_space c = true.
Proof.
  unfold is_int_space, is_space. intros H.
  apply orb_true_iff in H as [H|H]; apply orb_true_iff; [now left|].
  right. apply Nat.eqb_eq in H. rewrite H. reflexivity.
Qed.

Lemma no_space_no_int_space s :
  all_chars (fun c => negb (is_space c)) s = true ->
  all_chars (fun c => negb (is_int_space c)) s = true.
Proof.
  apply all_chars_impl. intros c H. apply negb_true_iff in H.
  apply negb_true_iff. destruct (is_int_space c) eqn:E; [|reflexivity].
  apply int_space_is_space in E. congruence.
Qed.

Lemma int_lstrip_id s :
  all_chars (fun c => negb (is_int_space c)) s = true -> int_lstrip s = s.
Proof.
  destruct s as [|c s]; cbn [all_chars int_lstrip]; [reflexivity|].
  intros H. apply andb_true_iff in H as [H _].
  apply negb_true_iff in H. now rewrite H.
Qed.

Lemma int_rstrip_id s :
  all_chars (fun c => negb (is_int_space c)) s = true -> int_rstrip s = s.
Proof.
  induction s as [|c s IH]; cbn [all_chars int_rstrip]; [reflexivity|].
  intros H. apply andb_true_iff in H as [H1 H2].
  apply negb_true_iff in H1. rewrite (IH H2), H1.
  destruct s; reflexivity.
Qed.

Lemma int_strip_id s :
  all_chars (fun c => negb (is_space c)) s = true -> int_strip s = s.
Proof.
  intros H. apply no_space_no_int_space in H.
  unfold int_strip. rewrite int_lstrip_id by exact H. now apply int_rstrip_id.
Qed.

Lemma is_int_char_digit c : is_digit c = true -> is_int_char c = true.
Proof. intros H. unfold is_int_char. now rewrite H. Qed.

Lemma str_int_chars n : all_chars is_int_char (str n) = true.
Proof.
  unfold str. destruct (n <? 0) eqn:E.
  - apply Z.ltb_lt in E. cbn [all_chars].
    rewrite (all_chars_impl is_digit is_int_char _ is_int_char_digit)
      by (apply str_nonneg_all_digits; lia).
    reflexivity.
  - apply Z.ltb_ge in E.
    apply (all_chars_impl is_digit is_int_char _ is_int_char_digit).
    now apply str_nonneg_all_digits.
Qed.

Lemma is_int_char_cases c :
  is_int_char c = true -> is_digit c = true \/ c = "-"%char.
Proof.
  unfold is_int_char. intros H. apply orb_true_iff in H as [H|H]; [now left|].
  right. now apply Ascii.eqb_eq.
Qed.

Lemma int_char_not_space c : is_int_char c = true -> negb (is_space c) = true.
Proof.
  intros H. apply negb_true_iff.
  destruct (is_int_char_cases c H) as [Hd | ->];
    [now apply is_digit_not_space | reflexivity].
Qed.

Lemma int_char_not_sep (sep : ascii) :
  is_int_char sep = false ->
  forall c, is_int_char c = true -> is_not sep c = true.
Proof.
  intros Hsep c Hc. unfold is_not. apply negb_true_iff, Ascii.eqb_neq.
  intros ->. congruence.
Qed.

Lemma str_no_space n : all_chars (fun c => negb (is_space c)) (str n) = true.
Proof.
  apply (all_chars_impl is_int_char _ _ int_char_not_space), str_int_chars.
Qed.

Lemma str_no_colon n : all_chars (is_not colon) (str n) = true.
Proof.
  apply (all_chars_impl is_int_char _ _ (int_char_not_sep colon eq_refl)),
    str_int_chars.
Qed.

(** A text that starts with a digit has no sign to read. *)
Lemma int_opt_unsigned c rest :
  is_digit c = true -> int_strip (String c rest) = String c rest ->
  int_opt (String c rest) = parse_digits (String c rest) 0 false.
Proof.
  intros Hc Hs. unfold int_opt. rewrite Hs.
  destruct c as [[] [] [] [] [] [] [] []]; try reflexivity; discriminate Hc.
Qed.

(** [int(str(n)) == n]. *)
Lemma int_opt_str n : int_opt (str n) = Some n.
Proof.
  pose proof (int_strip_id _ (str_no_space n)) as Hs.
  unfold str in *. destruct (n <? 0) eqn:E.
  - apply Z.ltb_lt in E. unfold int_opt. rewrite Hs.
    rewrite parse_str_nonneg by lia. cbn [option_map]. f_equal. lia.
  - apply Z.ltb_ge in E.
    destruct (str_nonneg_head n E) as (d & rest & Hd & _ & Heq).
    rewrite Heq in Hs |- *.
    rewrite int_opt_unsigned;
      [| now apply digit_char_is_digit | exact Hs].
    rewrite <- Heq. now apply parse_str_nonneg.
Qed.

Lemma int_str n : PyStr.int (str n) = Ok n.
Proof. unfold PyStr.int. now rewrite int_opt_str. Qed.

End IntFacts.

(** [int()] skips TAB..CR and the space around a literal but refuses the
    separators FS..US, which [str.strip()] removes. *)
Example int_refuses_separators :
  PyStr.int (chr_fs ++ "5") = Raise (ValueError IntLiteral)
  /\ PyStr.int ("5" ++ chr_gs) = Raise (ValueError IntLiteral)
  /\ PyStr.int (" 5" ++ PyStr.nl) = Ok 5
  /\ PyStr.strip (chr_gs ++ "30" ++ chr_fs) = "30"
  /\ parse_time ("1:" ++ chr_gs ++ "30") = Raise (ValueError IntLiteral)
  /\ parse_date (Some (chr_fs ++ "1/2")) nov3_10h
     = Raise (ValueError IntLiteral).
Proof. repeat split; reflexivity. Qed.


(** * [parse_time] *)

Section ParseTime.
Import PyStr PyStrFacts SplitFacts IntFacts.

(** [parse_time] by the parts of its argument. *)
Lemma parse_time_parts s :
  parse_time s =
    match split colon s with
    | [a] => PyStr.int a
    | [a; b] =>
        match int_opt a, int_opt b with
        | Some m, Some sec =>
            if sec >=? 60 then Raise (ValueError TimeSeconds) else Ok (m * 60 + sec)
        | _, _ => Raise (ValueError IntLiteral)
        end
    | [a; b; c] =>
        match int_opt a, int_opt b, int_opt c with
        | Some h, Some m, Some sec =>
            if (m >=? 60) || (sec >=? 60) then Raise (ValueError TimeMinSec)
            else Ok (h * 3600 + m * 60 + sec)
        | _, _, _ => Raise (ValueError IntLiteral)
        end
    | _ => Raise (ValueError TimeFormat)
    end.
Proof.
  unfold parse_time, PyStr.int, bind.
  destruct (split colon s) as [|a [|b [|c [|d l]]]]; try reflexivity.
  - destruct (int_opt a), (int_opt b); reflexivity.
  - destruct (int_opt a), (int_opt b), (int_opt c); reflexivity.
Qed.

(** Whatever [parse_time] raises is an [InvalidFormat]. *)
Lemma parse_time_raises s e : parse_time s = Raise e -> kind_of e = InvalidFormat.
Proof.
  rewrite parse_time_parts. unfold PyStr.int.
  destruct (split colon s) as [|a [|b [|c [|d l]]]];
    repeat match goal with
      | |- context [int_opt ?x] => destruct (int_opt x)
      | |- context [if ?b then _ else _] => destruct b
      end;
    intros H; inversion H; reflexivity.
Qed.



(** C10: [parse_time] never checks that a component is non-negative.
    ["-5"] is read as [-5] and ["1:-5"] as [55]; every integer written
    as one part is returned as it is, and with two or three parts every
    minutes and seconds below 60, negative ones too, are accepted and summed
    with their signs.  A negative total becomes the [duration] of a
    countdown in mode 1. *)
Theorem parse_time_accepts_negative :
  parse_time "-5" = Ok (-5)
  /\ parse_time "1:-5" = Ok 55
  /\ (forall n, parse_time (str n) = Ok n)
  /\ (forall m sec, sec < 60 ->
        parse_time (str m ++ ":" ++ str sec) = Ok (m * 60 + sec))
  /\ (forall h m sec, m < 60 -> sec < 60 ->
        parse_time (str h ++ ":" ++ str m ++ ":" ++ str sec)
        = Ok (h * 3600 + m * 60 + sec))
  /\ (forall date_str now n,
        cycle_anchors 1 (str n) date_str now = Ok (FromDuration n now)).
Proof.
  assert (Hone : forall n, parse_time (str n) = Ok n).
  { intros n. rewrite parse_time_parts.
    rewrite split_single by apply str_no_colon. apply int_str. }
  repeat match goal with |- _ /\ _ => split end; try reflexivity.
  - exact Hone.
  - intros m sec Hs. rewrite parse_time_parts. cbn [append].
    change (String ":" ?t) with (String colon t).
    rewrite split_cons by apply str_no_colon.
    rewrite split_single by apply str_no_colon.
    rewrite !int_opt_str.
    destruct (Z.geb_spec sec 60); [lia | reflexivity].
  - intros h m sec Hm Hs. rewrite parse_time_parts. cbn [append].
    change (String ":" ?t) with (String colon t).
    rewrite !split_cons by apply str_no_colon.
    rewrite split_single by apply str_no_colon.
    rewrite !int_opt_str.
    destruct (Z.geb_spec m 60); [lia|].
    destruct (Z.geb_spec sec 60); [lia | reflexivity].
  - intros date_str now n. unfold cycle_anchors.
    change (1 =? 0) with false. change (1 =? 1) with true. cbv iota.
    now rewrite Hone.
Qed.

Lemma parse_time_accepts_negative_witness :
  parse_time (str (-2) ++ ":" ++ str (-30)) = Ok (-2 * 60 + -30).
Proof.
  apply (proj1 (proj2 (proj2 (proj2 parse_time_accepts_negative))) (-2) (-30)).
  lia.
Defined.

End ParseTime.


(** * [parse_date] *)

Section ParseDate.
Import PyStr PyStrFacts SplitFacts IntFacts.

Lemma days_in_month_bounds y m : 28 <= days_in_month y m <= 31.
Proof.
  unfold days_in_month.
  destruct (m =? 2); [destruct (is_leap y); lia|].
  destruct ((m =? 4) || (m =? 6) || (m =? 9) || (m =? 11)); lia.
Qed.

(** The constructor accepts exactly the dates of the calendar. *)
Lemma make_valid y m d :
  calendar_valid y m d -> DT.make y m d = Ok (at_midnight y m d).
Proof.
  unfold calendar_valid, MINYEAR, MAXYEAR. intros (Hy & Hm & Hd).
  pose proof (days_in_month_bounds y m).
  unfold DT.make, c_int, MINYEAR, MAXYEAR.
  repeat match goal with
    | |- context [?a <=? ?b] =>
        destruct (Z.leb_spec a b); [|lia]
    end.
  reflexivity.
Qed.

Lemma make_invalid y m d :
  ~ calendar_valid y m d -> fails_with InvalidDate (DT.make y m d).
Proof.
  unfold calendar_valid, MINYEAR, MAXYEAR. intros Hn.
  unfold DT.make, MINYEAR, MAXYEAR.
  destruct (c_int y && c_int m && c_int d);
    [|eexists; split; reflexivity].
  cbn [negb].
  destruct (Z.leb_spec 1 y); cbn [andb negb]; [|eexists; split; reflexivity].
  destruct (Z.leb_spec y 9999); cbn [andb negb]; [|eexists; split; reflexivity].
  destruct (Z.leb_spec 1 m); cbn [andb negb]; [|eexists; split; reflexivity].
  destruct (Z.leb_spec m 12); cbn [andb negb]; [|eexists; split; reflexivity].
  destruct (Z.leb_spec 1 d); cbn [andb negb]; [|eexists; split; reflexivity].
  destruct (Z.leb_spec d (days_in_month y m)); cbn [andb negb];
    [|eexists; split; reflexivity].
  exfalso. apply Hn. lia.
Qed.

Lemma lower_char_not_slash c x :
  lower_char c = x -> x <> slash -> is_not slash c = true.
Proof.
  intros Hl Hx. unfold is_not. apply negb_true_iff, Ascii.eqb_neq.
  intros ->. apply Hx. now rewrite <- Hl.
Qed.

(** A spelling of ["null"] has no slash: it is one part. *)
Lemma null_single_part s : lower s = "null" -> split slash s = [s].
Proof.
  intros H. apply split_single.
  destruct s as [|c1 [|c2 [|c3 [|c4 [|c5 s]]]]]; try discriminate H.
  cbn [lower] in H. injection H as H1 H2 H3 H4.
  cbn [all_chars].
  rewrite (lower_char_not_slash c1 _ H1) by discriminate.
  rewrite (lower_char_not_slash c2 _ H2) by discriminate.
  rewrite (lower_char_not_slash c3 _ H3) by discriminate.
  rewrite (lower_char_not_slash c4 _ H4) by discriminate.
  reflexivity.
Qed.

(** With two parts or more the text is neither empty nor ["null"]. *)
Lemma several_parts_not_today s :
  (2 <= List.length (split slash s))%nat ->
  (String.eqb s "" || String.eqb (lower s) "null") = false.
Proof.
  intros Hlen. apply orb_false_iff; split.
  - apply String.eqb_neq. intros ->. simpl in Hlen. lia.
  - apply String.eqb_neq. intros Hnull.
    rewrite (null_single_part s Hnull) in Hlen. simpl in Hlen. lia.
Qed.

(** [parse_date] on a text that is not a spelling of today. *)
Lemma parse_date_parts s now :
  (String.eqb s "" || String.eqb (lower s) "null") = false ->
  parse_date (Some s) now =
    match split slash s with
    | [a; b] =>
        match int_opt a, int_opt b with
        | Some m, Some d => DT.make (year now) m d
        | _, _ => Raise (ValueError IntLiteral)
        end
    | [a; b; c] =>
        match int_opt a, int_opt b, int_opt c with
        | Some y, Some m, Some d => DT.make y m d
        | _, _, _ => Raise (ValueError IntLiteral)
        end
    | _ => Raise (ValueError DateFormat)
    end.
Proof.
  intros H. unfold parse_date. rewrite H. unfold PyStr.int, bind.
  destruct (split slash s) as [|a [|b [|c [|d l]]]]; try reflexivity.
  - destruct (int_opt a), (int_opt b); reflexivity.
  - destruct (int_opt a), (int_opt b), (int_opt c); reflexivity.
Qed.

(** C8: [parse_date] gives today at 00:00:00 for no text, the empty text
    and every spelling of ["null"]; for two parts [m/d] the date of month
    [m] and day [d] of the current year at midnight; for three parts
    [y/m/d] that date at midnight.  A text of another number of parts is an
    [InvalidFormat]; parts that are integers but no date of the calendar,
    such as month 13, are an [InvalidDate]. *)
Theorem parse_date_spec (now : datetime) :
  parse_date None now = Ok (at_midnight (year now) (month now) (day now))
  /\ parse_date (Some "") now = Ok (at_midnight (year now) (month now) (day now))
  /\ (forall s, lower s = "null" ->
        parse_date (Some s) now
        = Ok (at_midnight (year now) (month now) (day now)))
  /\ (forall s a b m d,
        split slash s = [a; b] -> int_opt a = Some m -> int_opt b = Some d ->
        (calendar_valid (year now) m d ->
           parse_date (Some s) now = Ok (at_midnight (year now) m d))
        /\ (~ calendar_valid (year now) m d ->
              fails_with InvalidDate (parse_date (Some s) now)))
  /\ (forall s a b c y m d,
        split slash s = [a; b; c] ->
        int_opt a = Some y -> int_opt b = Some m -> int_opt c = Some d ->
        (calendar_valid y m d ->
           parse_date (Some s) now = Ok (at_midnight y m d))
        /\ (~ calendar_valid y m d ->
              fails_with InvalidDate (parse_date (Some s) now)))
  /\ (forall s,
        s <> "" -> lower s <> "null" ->
        List.length (split slash s) <> 2%nat ->
        List.length (split slash s) <> 3%nat ->
        parse_date (Some s) now = Raise (ValueError DateFormat)
        /\ fails_with InvalidFormat (parse_date (Some s) now))
  /\ fails_with InvalidDate (parse_date (Some "2025/13/1") now)
  /\ fails_with InvalidDate (parse_date (Some "13/1") now).
Proof.
  repeat match goal with |- _ /\ _ => split end; try reflexivity.
  - intros s Hnull. unfold parse_date.
    apply String.eqb_eq in Hnull. rewrite Hnull, orb_true_r. reflexivity.
  - intros s a b m d Hparts Ha Hb.
    rewrite parse_date_parts
      by (apply several_parts_not_today; rewrite Hparts; simpl; lia).
    rewrite Hparts, Ha, Hb.
    split; [apply make_valid | apply make_invalid].
  - intros s a b c y m d Hparts Ha Hb Hc.
    rewrite parse_date_parts
      by (apply several_parts_not_today; rewrite Hparts; simpl; lia).
    rewrite Hparts, Ha, Hb, Hc.
    split; [apply make_valid | apply make_invalid].
  - intros s Hne Hnn H2 H3.
    rewrite parse_date_parts
      by (apply orb_false_iff; split; now apply String.eqb_neq).
    destruct (split slash s) as [|a [|b [|c [|d l]]]];
      simpl in H2, H3; try congruence;
      (split; [reflexivity | eexists; split; reflexivity]).
  - change (fails_with InvalidDate (DT.make 2025 13 1)).
    apply make_invalid. intros (_ & Hm & _). lia.
  - change (fails_with InvalidDate (DT.make (year now) 13 1)).
    apply make_invalid. intros (_ & Hm & _). lia.
Qed.

Lemma parse_date_spec_witness :
  parse_date (Some "2024/2/29") (DT.mk 2026 11 3 10 30 0 0)
  = Ok (at_midnight 2024 2 29).
Proof.
  apply (proj1 (proj1 (proj2 (proj2 (proj2 (proj2
           (parse_date_spec (DT.mk 2026 11 3 10 30 0 0))))))
           "2024/2/29" "2024" "2" "29" 2024 2 29
           eq_refl eq_refl eq_refl eq_refl)).
  unfold calendar_valid. repeat split; apply Z.leb_le; reflexivity.
Defined.

End ParseDate.


(** * The keyboard listener *)

Section OnPress.

Lemma char_is_eq char c : char_is char c = true <-> char = Some c.
Proof.
  destruct char as [s|]; simpl; [|split; discriminate].
  rewrite String.eqb_eq. split; [now intros -> | now intros [= ->]].
Qed.

Lemma char_is_neq char c : char <> Some c -> char_is char c = false.
Proof.
  intros H. destruct (char_is char c) eqn:E; [|reflexivity].
  now apply char_is_eq in E.
Qed.

Lemma char_is_other char c d : char = Some c -> c <> d -> char_is char d = false.
Proof. intros -> H. simpl. now apply String.eqb_neq. Qed.

(** C6: while a confirmation is awaited, [y] sets the flag of the pending
    action ([restart_requested] for a restart, [quit_requested] for a quit)
    and clears [awaiting_confirm]; [n] clears [awaiting_confirm] and changes
    nothing else; every other key leaves the whole state as it is.  The
    keys are matched after [lower()], so [Y] and [N] count as [y] and [n].
    After [r], a key other than [y] and [n] leaves [awaiting_confirm] set
    and requests no restart; [n] clears it with no restart; [y] sets
    [restart_requested]. *)
Theorem on_press_confirmation :
  (forall (st : TimerState) (pending : confirm) (k : key) (now : datetime),
     awaiting_confirm st = Some pending ->
     (key_char k = Some "y" ->
        on_press st k now =
          (mkState (running st) (paused st)
             (match pending with
              | ConfirmRestart => true
              | ConfirmQuit => restart_requested st
              end)
             (match pending with
              | ConfirmRestart => quit_requested st
              | ConfirmQuit => true
              end)
             None (pause_start st) (total_paused st), []))
     /\ (key_char k = Some "n" ->
           fst (on_press st k now) =
             mkState (running st) (paused st) (restart_requested st)
               (quit_requested st) None (pause_start st) (total_paused st))
     /\ (key_char k <> Some "y" -> key_char k <> Some "n" ->
           on_press st k now = (st, [])))
  /\ (forall (st : TimerState) (kr k : key) (t1 t2 : datetime),
        awaiting_confirm st = None -> key_char kr = Some "r" ->
        let st1 := fst (on_press st kr t1) in
        let st2 := fst (on_press st1 k t2) in
        awaiting_confirm st1 = Some ConfirmRestart
        /\ restart_requested st1 = restart_requested st
        /\ (key_char k <> Some "y" -> key_char k <> Some "n" -> st2 = st1)
        /\ (key_char k = Some "n" ->
              awaiting_confirm st2 = None
              /\ restart_requested st2 = restart_requested st)
        /\ (key_char k = Some "y" ->
              awaiting_confirm st2 = None /\ restart_requested st2 = true))
  /\ key_char (KeyCode (Some "Y")) = Some "y"
  /\ key_char (KeyCode (Some "N")) = Some "n"
  /\ key_char SpecialKey = None.
Proof.
  assert (Hfirst : forall st pending k now,
    awaiting_confirm st = Some pending ->
    (key_char k = Some "y" ->
        on_press st k now =
          (mkState (running st) (paused st)
             (match pending with
              | ConfirmRestart => true
              | ConfirmQuit => restart_requested st
              end)
             (match pending with
              | ConfirmRestart => quit_requested st
              | ConfirmQuit => true
              end)
             None (pause_start st) (total_paused st), []))
     /\ (key_char k = Some "n" ->
           fst (on_press st k now) =
             mkState (running st) (paused st) (restart_requested st)
               (quit_requested st) None (pause_start st) (total_paused st))
     /\ (key_char k <> Some "y" -> key_char k <> Some "n" ->
           on_press st k now = (st, []))).
  { intros st pending k now Hp. unfold on_press. rewrite Hp.
    split; [|split].
    - intros Hy. rewrite (proj2 (char_is_eq _ _) Hy).
      destruct pending; reflexivity.
    - intros Hn.
      rewrite (char_is_other _ "n" "y" Hn) by discriminate.
      rewrite (proj2 (char_is_eq _ _) Hn). reflexivity.
    - intros Hy Hn.
      now rewrite (char_is_neq _ _ Hy), (char_is_neq _ _ Hn). }
  split; [exact Hfirst|].
  split; [|repeat split].
  intros st kr k t1 t2 Hnone Hr st1 st2.
  assert (E1 : st1 =
            mkState (running st) (paused st) (restart_requested st)
              (quit_requested st) (Some ConfirmRestart) (pause_start st)
              (total_paused st)).
  { unfold st1, on_press. rewrite Hnone.
    now rewrite (proj2 (char_is_eq _ _) Hr). }
  assert (Hp : awaiting_confirm st1 = Some ConfirmRestart) by now rewrite E1.
  destruct (Hfirst st1 ConfirmRestart k t2 Hp) as (Hy & Hn & Ho).
  split; [exact Hp|].
  split; [now rewrite E1|].
  split; [|split].
  - intros A B. unfold st2. now rewrite (Ho A B).
  - intros A. unfold st2. rewrite (Hn A). cbn. now rewrite E1.
  - intros A. unfold st2. rewrite (Hy A). cbn. split; reflexivity.
Qed.

Lemma on_press_confirmation_witness :
  on_press (mkState true false false false (Some ConfirmQuit) None 0)
           (KeyCode (Some "Y")) (DT.mk 2026 11 3 10 0 0 0)
  = (mkState true false false true None None 0, []).
Proof.
  apply (proj1 (proj1 on_press_confirmation
           (mkState true false false false (Some ConfirmQuit) None 0)
           ConfirmQuit (KeyCode (Some "Y")) (DT.mk 2026 11 3 10 0 0 0)
           eq_refl)).
  reflexivity.
Defined.

End OnPress.


(** * The loop of [run_timer] *)

Section RunFacts.

Variables (HAS_PYNPUT : bool) (mode : Z) (time_str : string)
          (date_str : option string) (display : Z).

Local Abbreviation step' := (step HAS_PYNPUT mode time_str date_str display).
Local Abbreviation main_step' := (main_step mode time_str date_str display).
Local Abbreviation run_timer' := (run_timer HAS_PYNPUT mode time_str date_str display).

(** Printing leaves the file alone. *)
Lemma print_all_file out w :
  output_file (print_all out w) = output_file w
  /\ writes (print_all out w) = writes w.
Proof.
  revert w. induction out as [|l out IH]; intros w; [now split|].
  cbn [print_all fold_left]. destruct (IH (print l w)) as [A B].
  unfold print_all in A, B. now rewrite A, B.
Qed.

(** *** The pause invariant *)

Lemma pause_inv_init : pause_inv TimerState_init.
Proof. unfold pause_inv. simpl. split; [congruence | discriminate]. Qed.

Lemma pause_inv_on_press st k now :
  pause_inv st -> pause_inv (fst (on_press st k now)).
Proof.
  unfold pause_inv, on_press. intros H.
  destruct (awaiting_confirm st) as [pending|].
  - destruct (char_is (key_char k) "y"); [destruct pending; exact H|].
    destruct (char_is (key_char k) "n"); exact H.
  - destruct (char_is (key_char k) "r"); [exact H|].
    destruct (char_is (key_char k) "p").
    + destruct (paused st).
      * destruct (pause_start st); simpl; split; congruence.
      * simpl. split; [reflexivity | discriminate].
    + destruct (char_is (key_char k) "q"); exact H.
Qed.

Lemma pause_inv_reset st : pause_inv (cycle_reset st).
Proof. unfold pause_inv. simpl. split; [congruence | discriminate]. Qed.

Lemma pause_inv_set_running b st :
  pause_inv st -> pause_inv (set_running b st).
Proof. unfold pause_inv. simpl. tauto. Qed.

Lemma pause_inv_main_step c now :
  pause_inv (state c) -> pause_inv (state (main_step' c now)).
Proof.
  intros H. unfold main_step.
  destruct (at_pc c) as [|a| | |e]; try exact H.
  - destruct (running (state c)); [|exact H].
    destruct (cycle_anchors mode time_str date_str now);
      apply pause_inv_reset.
  - destruct (negb (quit_requested (state c)) && negb (restart_requested (state c)));
      [|exact H].
    destruct (inner_tick a display (state c) now);
      [exact H | exact H | now apply pause_inv_set_running | exact H].
  - destruct (quit_requested (state c)); cbn [state].
    + now apply pause_inv_set_running.
    + exact H.
Qed.

Lemma pause_inv_step c e :
  pause_inv (state c) -> pause_inv (state (step' c e)).
Proof.
  intros H. destruct e as [k now|now|]; cbn [step].
  - destruct (HAS_PYNPUT && live (at_pc c)); [|exact H].
    pose proof (pause_inv_on_press (state c) k now H) as H'.
    destruct (on_press (state c) k now) as [s out]. exact H'.
  - now apply pause_inv_main_step.
  - destruct (live (at_pc c)); exact H.
Qed.

Lemma pause_inv_run evs : forall c,
  pause_inv (state c) -> pause_inv (state (fold_left step' evs c)).
Proof.
  induction evs as [|e evs IH]; intros c H; [exact H|].
  cbn [fold_left]. apply IH. now apply pause_inv_step.
Qed.

End RunFacts.

(** C9: [pause_start] is set exactly while [paused] holds.  This is so in
    the initial state, it is kept by every key the listener handles (the
    pause key sets [pause_start] when the pause begins and clears it when
    the pause ends, adding the time paused to [total_paused]), by the reset
    at the start of a cycle and by the loop's writes to [running]; so it
    holds in every state a run of [run_timer] reaches. *)
Theorem pause_invariant :
  pause_inv TimerState_init
  /\ (forall st k now, pause_inv st -> pause_inv (fst (on_press st k now)))
  /\ (forall st now k,
        awaiting_confirm st = None -> is_pause_key k = true ->
        (paused st = false ->
           fst (on_press st k now) =
             mkState (running st) true (restart_requested st)
               (quit_requested st) None (Some now) (total_paused st))
        /\ (forall t0, paused st = true -> pause_start st = Some t0 ->
              fst (on_press st k now) =
                mkState (running st) false (restart_requested st)
                  (quit_requested st) None None
                  (total_paused st + (to_micro now - to_micro t0))))
  /\ (forall st, pause_inv (cycle_reset st))
  /\ (forall has mode time_str date_str display w evs,
        pause_inv (state (run_timer has mode time_str date_str display w evs))).
Proof.
  split; [apply pause_inv_init|].
  split; [apply pause_inv_on_press|].
  split; [|split; [apply pause_inv_reset|]].
  - intros st now k Hnone Hp. unfold is_pause_key in Hp.
    apply char_is_eq in Hp.
    unfold on_press. rewrite Hnone.
    rewrite (char_is_other _ "p" "r" Hp) by discriminate.
    rewrite (proj2 (char_is_eq _ _) Hp).
    split.
    + intros ->. reflexivity.
    + intros t0 -> ->. reflexivity.
  - intros. unfold run_timer. apply pause_inv_run. apply pause_inv_init.
Qed.

Lemma pause_invariant_witness :
  pause_inv (fst (on_press TimerState_init (KeyCode (Some "p"))
                   (DT.mk 2026 11 3 10 0 0 0))).
Proof.
  apply (proj1 (proj2 pause_invariant)). apply pause_inv_init.
Defined.


(** * The start of a cycle *)

(** C3, found false as stated: the user presses [q] and [y] before the
    main thread enters the first cycle; the cycle starts, the anchors of
    mode 1 are computed, and [quit_requested] is still set. *)
Lemma cycle_start_keeps_quit_requested :
  at_pc (run_timer true 1 "5" None 0 world0
           [KeyPress (KeyCode (Some "q")) nov3_10h;
            KeyPress (KeyCode (Some "y")) nov3_10h;
            MainStep nov3_10h])
  = AtInner (FromDuration 5 nov3_10h)
  /\ quit_requested
       (state (run_timer true 1 "5" None 0 world0
                 [KeyPress (KeyCode (Some "q")) nov3_10h;
                  KeyPress (KeyCode (Some "y")) nov3_10h;
                  MainStep nov3_10h]))
     = true
  /\ quit_requested
       (cycle_reset (mkState true false false true None None 0)) = true.
Proof. repeat split; reflexivity. Qed.

(** C3, amended: at the start of every cycle of the outer loop
    [restart_requested] is cleared, [total_paused] is set to 0,
    [pause_start] to [None] and [paused] to [False], before the anchors of
    the cycle are computed (the state is reset also when computing them
    raises); [quit_requested], [running] and [awaiting_confirm] are not
    written. *)
Theorem cycle_start_resets :
  (forall st,
     restart_requested (cycle_reset st) = false
     /\ total_paused (cycle_reset st) = 0
     /\ pause_start (cycle_reset st) = None
     /\ paused (cycle_reset st) = false
     /\ quit_requested (cycle_reset st) = quit_requested st
     /\ running (cycle_reset st) = running st
     /\ awaiting_confirm (cycle_reset st) = awaiting_confirm st)
  /\ (forall mode time_str date_str display c now,
        at_pc c = AtOuter -> running (state c) = true ->
        state (main_step mode time_str date_str display c now)
        = cycle_reset (state c)
        /\ at_pc (main_step mode time_str date_str display c now)
           = match cycle_anchors mode time_str date_str now with
             | Ok a => AtInner a
             | Raise e => Raised e
             end).
Proof.
  split.
  - intros st. repeat split.
  - intros mode time_str date_str display c now Hpc Hrun.
    unfold main_step. rewrite Hpc, Hrun.
    destruct (cycle_anchors mode time_str date_str now); split; reflexivity.
Qed.

Lemma cycle_start_resets_witness :
  state (main_step 1 "5" None 0
           (mkConfig AtOuter (mkState true true true false None (Some nov3_10h) 7)
              world0) nov3_10h)
  = cycle_reset (mkState true true true false None (Some nov3_10h) 7)
  /\ at_pc (main_step 1 "5" None 0
              (mkConfig AtOuter (mkState true true true false None (Some nov3_10h) 7)
                 world0) nov3_10h)
     = match cycle_anchors 1 "5" None nov3_10h with
       | Ok a => AtInner a
       | Raise e => Raised e
       end.
Proof.
  apply (proj2 cycle_start_resets 1 "5" None 0
           (mkConfig AtOuter (mkState true true true false None (Some nov3_10h) 7)
              world0) nov3_10h); reflexivity.
Defined.

(** * The end of [main] *)

(** C4, found false as stated: the restart of [new_year_run] raises a
    [ValueError] in the run loop; [main] reports it and exits with status 1,
    and [OUTPUT.txt] still holds the time written last, not the empty
    text. *)
Lemma main_error_keeps_output :
  at_pc (run_timer true 0 "9000:00:00" (Some "2/29") 0 world0 new_year_run)
  = Raised (ValueError DateConstructor)
  /\ snd (main true 0 "9000:00:00" (Some "2/29") 0 world0 new_year_run) = Some 1
  /\ output_file
       (fst (main true 0 "9000:00:00" (Some "2/29") 0 world0 new_year_run))
     = "1632:00:09"
  /\ writes
       (fst (main true 0 "9000:00:00" (Some "2/29") 0 world0 new_year_run))
     = ["1632:00:09"]
  /\ output_file
       (fst (main true 0 "9000:00:00" (Some "2/29") 0 world0 new_year_run))
     <> "".
Proof. repeat split; try (vm_compute; reflexivity). vm_compute. discriminate. Qed.

(** C4, amended: every exception other than a keyboard interrupt that
    leaves the run loop is reported on the console, and the process exits
    with status 1; [OUTPUT.txt] is not written and keeps what the loop wrote
    last.  Only on a keyboard interrupt is the empty text written to
    [OUTPUT.txt], and the exit status is then 0. *)
Theorem main_on_exception :
  forall has mode time_str date_str display w evs e,
    at_pc (run_timer has mode time_str date_str display w evs) = Raised e ->
    let c := run_timer has mode time_str date_str display w evs in
    let r := main has mode time_str date_str display w evs in
    (e <> KeyboardInterrupt ->
       snd r = Some 1
       /\ console (fst r) = ErrorReport e :: console (the_world c)
       /\ output_file (fst r) = output_file (the_world c)
       /\ writes (fst r) = writes (the_world c))
    /\ (e = KeyboardInterrupt ->
          snd r = Some 0
          /\ console (fst r)
             = Line (PyStr.nl ++ "Interrupted by user" ++ PyStr.nl)
               :: console (the_world c)
          /\ output_file (fst r) = ""
          /\ writes (fst r) = "" :: writes (the_world c)).
Proof.
  intros has mode time_str date_str display w evs e Hpc c r.
  unfold r, c, main. rewrite Hpc. split.
  - intros Hne. destruct e as [o|o|]; [| |congruence]; cbn; repeat split.
  - intros ->. cbn. repeat split.
Qed.

Lemma main_on_exception_witness :
  snd (main true 0 "9000:00:00" (Some "2/29") 0 world0 new_year_run) = Some 1
  /\ console (fst (main true 0 "9000:00:00" (Some "2/29") 0 world0 new_year_run))
     = ErrorReport (ValueError DateConstructor)
       :: console (the_world
            (run_timer true 0 "9000:00:00" (Some "2/29") 0 world0 new_year_run))
  /\ output_file (fst (main true 0 "9000:00:00" (Some "2/29") 0 world0 new_year_run))
     = output_file (the_world
         (run_timer true 0 "9000:00:00" (Some "2/29") 0 world0 new_year_run))
  /\ writes (fst (main true 0 "9000:00:00" (Some "2/29") 0 world0 new_year_run))
     = writes (the_world
         (run_timer true 0 "9000:00:00" (Some "2/29") 0 world0 new_year_run)).
Proof.
  apply (proj1 (main_on_exception true 0 "9000:00:00" (Some "2/29") 0 world0
                  new_year_run (ValueError DateConstructor)
                  ltac:(vm_compute; reflexivity))).
  discriminate.
Defined.


(** * Mode 0 and the pause *)

Section ToTargetPause.

Variables (HAS_PYNPUT : bool) (time_str : string)
          (date_str : option string) (display : Z).

Local Abbreviation step0 := (step HAS_PYNPUT 0 time_str date_str display).
Local Abbreviation ticks0 := (ticks HAS_PYNPUT 0 time_str date_str display).

Lemma same_but_pause_refl s : same_but_pause s s.
Proof. repeat split. Qed.

Lemma same_but_pause_sym s1 s2 : same_but_pause s1 s2 -> same_but_pause s2 s1.
Proof. intros (A & B & C & D). repeat split; congruence. Qed.

Lemma same_but_pause_trans s1 s2 s3 :
  same_but_pause s1 s2 -> same_but_pause s2 s3 -> same_but_pause s1 s3.
Proof. intros (A & B & C & D) (A' & B' & C' & D'). repeat split; congruence. Qed.

Lemma same_config_sym c1 c2 :
  same_but_pause_config c1 c2 -> same_but_pause_config c2 c1.
Proof.
  intros (A & B & C & D & E). repeat split; try congruence.
  - intros a Ha. apply B. congruence.
  - now apply same_but_pause_sym.
  - apply (same_but_pause_sym _ _ C).
  - apply (same_but_pause_sym _ _ C).
  - apply (same_but_pause_sym _ _ C).
Qed.

Lemma same_config_trans c1 c2 c3 :
  same_but_pause_config c1 c2 -> same_but_pause_config c2 c3 ->
  same_but_pause_config c1 c3.
Proof.
  intros (A & B & C & D & E) (A' & B' & C' & D' & E').
  split; [congruence|]. split; [exact B|].
  split; [now apply (same_but_pause_trans _ _ _ C C')|].
  split; congruence.
Qed.

(** The listener treats two states alike when they differ in the pause
    fields only. *)
Lemma on_press_same_but_pause s1 s2 k t1 t2 :
  same_but_pause s1 s2 ->
  same_but_pause (fst (on_press s1 k t1)) (fst (on_press s2 k t2)).
Proof.
  intros (A & B & C & D). unfold on_press. rewrite <- D.
  destruct (awaiting_confirm s1) as [pending|] eqn:Ea.
  - destruct (char_is (key_char k) "y");
      [destruct pending; repeat split; cbn; congruence|].
    destruct (char_is (key_char k) "n"); repeat split; cbn; congruence.
  - destruct (char_is (key_char k) "r"); [repeat split; cbn; congruence|].
    destruct (char_is (key_char k) "p").
    + destruct (paused s1), (paused s2);
        try destruct (pause_start s1); try destruct (pause_start s2);
        repeat split; cbn; congruence.
    + destruct (char_is (key_char k) "q"); repeat split; cbn; congruence.
Qed.

(** The pause key changes the pause fields and the console only. *)
Lemma on_press_pause_key s k now :
  is_pause_key k = true -> same_but_pause s (fst (on_press s k now)).
Proof.
  unfold is_pause_key. intros Hp. apply char_is_eq in Hp.
  unfold on_press.
  rewrite (char_is_other _ "p" "y" Hp), (char_is_other _ "p" "n" Hp),
    (char_is_other _ "p" "r" Hp) by discriminate.
  rewrite (proj2 (char_is_eq _ _) Hp).
  destruct (awaiting_confirm s) eqn:Ea; [apply same_but_pause_refl|].
  destruct (paused s); [destruct (pause_start s)|];
    repeat split; cbn; congruence.
Qed.

Lemma step_pause_key c k now :
  (forall a, at_pc c = AtInner a -> exists t, a = ToTarget t) ->
  is_pause_key k = true ->
  same_but_pause_config c (step0 c (KeyPress k now)).
Proof.
  intros Ha Hk. cbn [step].
  destruct (HAS_PYNPUT && live (at_pc c)).
  - pose proof (on_press_pause_key (state c) k now Hk) as Hs.
    destruct (on_press (state c) k now) as [s out]. cbn [fst] in Hs.
    destruct (print_all_file out (the_world c)) as [F W].
    repeat split; cbn; try apply Hs; auto.
  - repeat split; auto.
Qed.

(** In mode 0 the anchors are a target time. *)
Lemma cycle_anchors_mode0 now a :
  cycle_anchors 0 time_str date_str now = Ok a -> exists t, a = ToTarget t.
Proof.
  unfold cycle_anchors. change (0 =? 0) with true. cbv iota. unfold bind.
  destruct (parse_date date_str now); [|discriminate].
  destruct (parse_time time_str); [|discriminate].
  destruct (add_seconds _ _) as [t|]; [|discriminate].
  intros [= <-]. now exists t.
Qed.

Lemma main_step_same c1 c2 now :
  same_but_pause_config c1 c2 ->
  same_but_pause_config
    (main_step 0 time_str date_str display c1 now)
    (main_step 0 time_str date_str display c2 now).
Proof.
  intros (A & B & (R & Q & U & W) & F & G). unfold main_step.
  rewrite <- A, <- R, <- Q, <- U.
  destruct (at_pc c1) as [|a| | |e] eqn:Hpc.
  - destruct (running (state c1)) eqn:Er.
    + destruct (cycle_anchors 0 time_str date_str now) as [a|e] eqn:Ha.
      * split; [reflexivity|]. split.
        { intros a' [= <-]. now apply (cycle_anchors_mode0 now). }
        repeat split; cbn; congruence.
      * split; [reflexivity|]. split; [discriminate|].
        repeat split; cbn; congruence.
    + split; [reflexivity|]. split; [discriminate|].
      repeat split; cbn; congruence.
  - destruct (B a eq_refl) as [t ->].
    destruct (negb (quit_requested (state c1)) && negb (restart_requested (state c1))).
    + cbn [inner_tick].
      destruct (t - to_micro now <=? 0).
      * split; [reflexivity|]. split; [discriminate|].
        repeat split; cbn; congruence.
      * split; [reflexivity|]. split; [intros a' [= <-]; now exists t|].
        repeat split; cbn; congruence.
    + split; [reflexivity|]. split; [discriminate|].
      repeat split; cbn; congruence.
  - destruct (quit_requested (state c1)) eqn:Eq1,
      (restart_requested (state c1)) eqn:Es1,
      (quit_requested (state c2)) eqn:Eq2,
      (restart_requested (state c2)) eqn:Es2; try congruence;
      cbn; rewrite ?Es1, ?Es2; cbn;
      (split; [reflexivity|]; split; [discriminate|];
       repeat split; cbn; congruence).
  - split; [congruence|]. split; [intros a' Ha'; congruence|].
    repeat split; congruence.
  - split; [congruence|]. split; [intros a' Ha'; congruence|].
    repeat split; congruence.
Qed.

Lemma step_same c1 c2 e :
  same_but_pause_config c1 c2 ->
  same_but_pause_config (step0 c1 e) (step0 c2 e).
Proof.
  intros H. pose proof H as (A & B & C & F & G).
  destruct e as [k now|now|]; cbn [step].
  - rewrite <- A.
    destruct (HAS_PYNPUT && live (at_pc c1)); [|exact H].
    pose proof (on_press_same_but_pause _ _ k now now C) as Hs.
    destruct (on_press (state c1) k now) as [s1 out1].
    destruct (on_press (state c2) k now) as [s2 out2].
    cbn [fst] in Hs.
    destruct (print_all_file out1 (the_world c1)) as [F1 W1].
    destruct (print_all_file out2 (the_world c2)) as [F2 W2].
    split; [reflexivity|]. split; [exact B|]. split; [exact Hs|].
    cbn. split; congruence.
  - now apply main_step_same.
  - rewrite <- A.
    destruct (live (at_pc c1)); [|exact H].
    split; [reflexivity|]. split; [discriminate|].
    split; [exact C|]. now split.
Qed.

Lemma observe_same c1 c2 e :
  same_but_pause_config c1 c2 -> observe display c1 e = observe display c2 e.
Proof.
  intros (A & B & (R & Q & U & W) & F & G). unfold observe.
  destruct e as [k now|now|]; try reflexivity.
  rewrite <- A, <- Q, <- U.
  destruct (at_pc c1) as [|a| | |e] eqn:Hpc; try reflexivity.
  destruct (B a eq_refl) as [t ->]. reflexivity.
Qed.

(** A run and the run without its pause keys make the same ticks and end
    in configurations that differ in the pause fields at most. *)
Lemma run_erase_pause evs : forall c1 c2,
  same_but_pause_config c1 c2 ->
  ticks0 c1 evs = ticks0 c2 (erase_pause evs)
  /\ same_but_pause_config (fold_left step0 evs c1)
       (fold_left step0 (erase_pause evs) c2).
Proof.
  induction evs as [|e evs IH]; intros c1 c2 H; [now split|].
  cbn [ticks fold_left erase_pause filter].
  destruct e as [k now|now|].
  - destruct (is_pause_key k) eqn:Hk; cbn [negb].
    + assert (H1 : same_but_pause_config (step0 c1 (KeyPress k now)) c2).
      { apply (same_config_trans _ c1); [|exact H].
        apply same_config_sym, step_pause_key; [apply H | exact Hk]. }
      destruct (IH _ _ H1) as [T S]. fold (erase_pause evs). now split.
    + cbn [ticks fold_left]. fold (erase_pause evs).
      destruct (IH _ _ (step_same _ _ (KeyPress k now) H)) as [T S].
      split; [|exact S]. cbn [observe app]. exact T.
  - cbn [ticks fold_left]. fold (erase_pause evs).
    destruct (IH _ _ (step_same _ _ (MainStep now) H)) as [T S].
    split; [|exact S].
    now rewrite (observe_same _ _ (MainStep now) H), T.
  - cbn [ticks fold_left]. fold (erase_pause evs).
    destruct (IH _ _ (step_same _ _ Interrupt H)) as [T S].
    split; [|exact S]. cbn [observe app]. exact T.
Qed.

Lemma same_config_start w :
  same_but_pause_config (run_start HAS_PYNPUT w) (run_start HAS_PYNPUT w).
Proof. repeat split. discriminate. Qed.

(** No tick of a run in mode 0 is skipped. *)
Lemma ticks_never_skipped evs : forall c,
  (forall a, at_pc c = AtInner a -> exists t, a = ToTarget t) ->
  ~ In Skipped (ticks0 c evs).
Proof.
  induction evs as [|e evs IH]; intros c Hc; [intros []|].
  cbn [ticks]. intros Hin. apply in_app_or in Hin as [Hin|Hin].
  - unfold observe in Hin. destruct e as [k now|now|]; try destruct Hin.
    destruct (at_pc c) as [|a| | |e] eqn:Hpc; try destruct Hin.
    destruct (Hc a eq_refl) as [t ->].
    destruct (negb _ && negb _); [|destruct Hin].
    cbn [inner_tick] in Hin.
    destruct (t - to_micro now <=? 0); destruct Hin as [Hin|[]]; discriminate.
  - revert Hin. apply IH.
    assert (Hs : same_but_pause_config c c).
    { split; [reflexivity|]. split; [exact Hc|].
      split; [apply same_but_pause_refl|]. now split. }
    apply (step_same _ _ e Hs).
Qed.

End ToTargetPause.

(** C5: in mode 0 every tick computes [remaining] as the target minus the
    clock, whatever the pause fields hold, and no tick is skipped for a
    pause.  Two runs whose events differ in the presses of the pause key
    only make the same ticks, with the same values at the same readings of
    the clock, write the same texts to [OUTPUT.txt], stand at the same place
    of the loop and end in states that differ in the pause fields at
    most. *)
Theorem to_target_ignores_pause :
  (forall target display st now,
     inner_tick (ToTarget target) display st now <> Skipped
     /\ tick_value (inner_tick (ToTarget target) display st now)
        = Some (target - to_micro now))
  /\ (forall target display st1 st2 now,
        inner_tick (ToTarget target) display st1 now
        = inner_tick (ToTarget target) display st2 now)
  /\ (forall has time_str date_str display w evs1 evs2,
        erase_pause evs1 = erase_pause evs2 ->
        let c1 := run_timer has 0 time_str date_str display w evs1 in
        let c2 := run_timer has 0 time_str date_str display w evs2 in
        ticks has 0 time_str date_str display (run_start has w) evs1
        = ticks has 0 time_str date_str display (run_start has w) evs2
        /\ at_pc c1 = at_pc c2
        /\ writes (the_world c1) = writes (the_world c2)
        /\ output_file (the_world c1) = output_file (the_world c2)
        /\ same_but_pause (state c1) (state c2))
  /\ (forall has time_str date_str display w evs,
        ~ In Skipped
            (ticks has 0 time_str date_str display (run_start has w) evs)).
Proof.
  split; [|split; [|split]].
  - intros target display st now. cbn [inner_tick].
    destruct (target - to_micro now <=? 0); split; (discriminate || reflexivity).
  - reflexivity.
  - intros has time_str date_str display w evs1 evs2 Herase c1 c2.
    pose proof (same_config_start has w) as H0.
    destruct (run_erase_pause has time_str date_str display evs1 _ _ H0)
      as [T1 S1].
    destruct (run_erase_pause has time_str date_str display evs2 _ _ H0)
      as [T2 S2].
    rewrite Herase in T1, S1.
    pose proof (same_config_trans _ _ _ S1 (same_config_sym _ _ S2))
      as (A & _ & C & F & G).
    split; [congruence|]. unfold c1, c2, run_timer.
    split; [exact A|]. split; [exact G|]. split; [exact F | exact C].
  - intros has time_str date_str display w evs.
    apply ticks_never_skipped. discriminate.
Qed.

Lemma to_target_ignores_pause_witness :
  ticks true 0 "10:00:05" None 0 (run_start true world0) paused_run
  = ticks true 0 "10:00:05" None 0 (run_start true world0) unpaused_run
  /\ at_pc (run_timer true 0 "10:00:05" None 0 world0 paused_run)
     = at_pc (run_timer true 0 "10:00:05" None 0 world0 unpaused_run)
  /\ writes (the_world (run_timer true 0 "10:00:05" None 0 world0 paused_run))
     = writes (the_world (run_timer true 0 "10:00:05" None 0 world0 unpaused_run))
  /\ output_file (the_world (run_timer true 0 "10:00:05" None 0 world0 paused_run))
     = output_file
         (the_world (run_timer true 0 "10:00:05" None 0 world0 unpaused_run))
  /\ same_but_pause
       (state (run_timer true 0 "10:00:05" None 0 world0 paused_run))
       (state (run_timer true 0 "10:00:05" None 0 world0 unpaused_run)).
Proof.
  apply (proj1 (proj2 (proj2 to_target_ignores_pause))
           true "10:00:05" None 0 world0 paused_run unpaused_run).
  reflexivity.
Defined.

(** The run of the witness: two ticks, 4.9 and 3.8 seconds before the
    target, and the pause is on at the end. *)
Example paused_run_ticks :
  ticks true 0 "10:00:05" None 0 (run_start true world0) paused_run
  = [Published 4900000 "4"; Published 3800000 "3"]
  /\ paused (state (run_timer true 0 "10:00:05" None 0 world0 paused_run)) = true
  /\ writes (the_world (run_timer true 0 "10:00:05" None 0 world0 paused_run))
     = ["3"; "4"].
Proof. repeat split; vm_compute; reflexivity. Qed.

(** In mode 1 the same pauses hold the countdown: both ticks are
    skipped. *)
Example paused_run_mode1 :
  ticks true 1 "5" None 0 (run_start true world0) paused_run
  = [Skipped; Skipped]
  /\ ticks true 1 "5" None 0 (run_start true world0) unpaused_run
     = [Published 4900000 "4"; Published 3800000 "3"].
Proof. repeat split; vm_compute; reflexivity. Qed.


(** * [format_time] and [parse_time] together *)

Section FormatParse.
Import PyStr PyStrFacts SplitFacts IntFacts.

Lemma digits_no_space s :
  all_chars is_digit s = true ->
  all_chars (fun c => negb (is_space c)) s = true.
Proof.
  apply all_chars_impl. intros c H. now rewrite is_digit_not_space.
Qed.

(** A text of digits is read as an unsigned literal. *)
Lemma int_opt_digits c rest :
  all_chars is_digit (String c rest) = true ->
  int_opt (String c rest) = parse_digits (String c rest) 0 false.
Proof.
  intros H. apply int_opt_unsigned.
  - cbn [all_chars] in H. now apply andb_true_iff in H as [H _].
  - now apply int_strip_id, digits_no_space.
Qed.

Lemma int_opt_fmt_02d n : 0 <= n -> int_opt (fmt_02d n) = Some n.
Proof.
  intros H. destruct (Z_lt_ge_dec n 100) as [L|G].
  - pose proof (fmt_02d_all_digits n H) as Hd.
    rewrite fmt_02d_two in Hd |- * by lia.
    rewrite int_opt_digits by exact Hd.
    assert (Hq : 0 <= n / 10 < 10)
      by (split; [apply Z.div_pos | apply Z.div_lt_upper_bound]; lia).
    assert (Hr : 0 <= n mod 10 < 10) by (apply Z.mod_pos_bound; lia).
    cbn [parse_digits].
    rewrite !digit_char_is_digit, !digit_char_val by assumption.
    f_equal. pose proof (Z.div_mod n 10 ltac:(lia)). lia.
  - rewrite fmt_02d_wide by lia.
    rewrite <- str_nonneg_eq by exact H. apply int_opt_str.
Qed.

Lemma fmt_02d_no_colon n : 0 <= n -> all_chars (is_not colon) (fmt_02d n) = true.
Proof. intros H. now apply digits_no_colon, fmt_02d_all_digits. Qed.

(** [parse_time] of three parts written by [str] or [fmt_02d]. *)
Lemma parse_time_three a b c h mi se :
  all_chars (is_not colon) a = true -> all_chars (is_not colon) b = true ->
  all_chars (is_not colon) c = true ->
  int_opt a = Some h -> int_opt b = Some mi -> int_opt c = Some se ->
  mi < 60 -> se < 60 ->
  parse_time (a ++ ":" ++ b ++ ":" ++ c) = Ok (h * 3600 + mi * 60 + se).
Proof.
  intros Ha Hb Hc Ia Ib Ic Hm Hs. rewrite parse_time_parts. cbn [append].
  change (String ":" ?t) with (String colon t).
  rewrite !split_cons, split_single by assumption.
  rewrite Ia, Ib, Ic.
  destruct (Z.geb_spec mi 60); [lia|].
  destruct (Z.geb_spec se 60); [lia | reflexivity].
Qed.

Lemma parse_time_two a b mi se :
  all_chars (is_not colon) a = true -> all_chars (is_not colon) b = true ->
  int_opt a = Some mi -> int_opt b = Some se -> se < 60 ->
  parse_time (a ++ ":" ++ b) = Ok (mi * 60 + se).
Proof.
  intros Ha Hb Ia Ib Hs. rewrite parse_time_parts. cbn [append].
  change (String ":" ?t) with (String colon t).
  rewrite split_cons, split_single by assumption.
  rewrite Ia, Ib.
  destruct (Z.geb_spec se 60); [lia | reflexivity].
Qed.

Lemma parse_time_one a n :
  all_chars (is_not colon) a = true -> int_opt a = Some n ->
  parse_time a = Ok n.
Proof.
  intros Ha Ia. rewrite parse_time_parts, split_single by assumption.
  unfold PyStr.int. now rewrite Ia.
Qed.

Lemma hms_sum t :
  0 <= t -> t / 3600 * 3600 + t mod 3600 / 60 * 60 + t mod 60 = t.
Proof.
  intros H.
  pose proof (Z.div_mod t 3600 ltac:(lia)).
  pose proof (Z.div_mod (t mod 3600) 60 ltac:(lia)).
  assert (E : (t mod 3600) mod 60 = t mod 60).
  { apply (Z.mod_unique_pos t 60 (60 * (t / 3600) + t mod 3600 / 60)).
    - apply Z.mod_pos_bound; lia.
    - lia. }
  lia.
Qed.

(** X1: whatever the display mode, [parse_time] reads the text written by
    [format_time] back as the number of seconds formatted, a negative
    number counting as zero. *)
Theorem parse_time_format_time (x m : Z) :
  parse_time (format_time x m) = Ok (Z.max 0 x).
Proof.
  rewrite format_time_clamp. set (t := Z.max 0 x).
  assert (Ht : 0 <= t) by (unfold t; lia).
  destruct (hms_bounds t Ht) as (Hh & Hm & Hs).
  pose proof (hms_sum t Ht) as Hsum.
  unfold format_time.
  assert (E : (t <? 0) = false) by (apply Z.ltb_ge; lia).
  rewrite E.
  set (h := t / 3600) in *. set (mi := t mod 3600 / 60) in *.
  set (se := t mod 60) in *.
  assert (T3 : forall a, all_chars (is_not colon) a = true ->
             int_opt a = Some h ->
             parse_time (a ++ ":" ++ fmt_02d mi ++ ":" ++ fmt_02d se) = Ok t).
  { intros a Ha Ia. rewrite <- Hsum.
    apply parse_time_three; auto using fmt_02d_no_colon, int_opt_fmt_02d;
      try apply fmt_02d_no_colon; try apply int_opt_fmt_02d; lia. }
  assert (T2 : forall a, h = 0 -> all_chars (is_not colon) a = true ->
             int_opt a = Some mi ->
             parse_time (a ++ ":" ++ fmt_02d se) = Ok t).
  { intros a Hz Ha Ia. replace t with (mi * 60 + se) by lia.
    apply parse_time_two; auto; try apply fmt_02d_no_colon;
      try apply int_opt_fmt_02d; lia. }
  assert (T1 : forall a, h = 0 -> mi = 0 ->
             all_chars (is_not colon) a = true -> int_opt a = Some se ->
             parse_time a = Ok t).
  { intros a Hz Hz' Ha Ia. replace t with se by lia.
    now apply parse_time_one. }
  destruct (m =? 0); [|destruct (m =? 1)].
  - destruct (Z.gtb_spec h 0).
    + apply T3; [apply str_no_colon | apply int_opt_str].
    + destruct (Z.gtb_spec mi 0).
      * apply T2; [lia | apply str_no_colon | apply int_opt_str].
      * apply T1; [lia | lia | apply str_no_colon | apply int_opt_str].
  - destruct (Z.gtb_spec h 0).
    + apply T3; [apply str_no_colon | apply int_opt_str].
    + destruct (Z.gtb_spec mi 0).
      * apply T2; [lia | apply fmt_02d_no_colon; lia | apply int_opt_fmt_02d; lia].
      * apply T1; [lia | lia | apply fmt_02d_no_colon; lia
                  | apply int_opt_fmt_02d; lia].
  - apply T3; [apply fmt_02d_no_colon; lia | apply int_opt_fmt_02d; lia].
Qed.

(** X2: below one hour there is no hours field.  Below one minute mode 0
    writes the plain seconds and mode 1 their two digits; from one minute
    on mode 0 writes the plain minutes and mode 1 their two digits, each
    followed by a colon and the two digits of the seconds. *)
Theorem format_time_below_one_hour (x : Z) :
  0 <= x < 3600 ->
  (x < 60 ->
     format_time x 0 = str x /\ format_time x 1 = two_digits x)
  /\ (60 <= x ->
        format_time x 0 = str (x / 60) ++ ":" ++ two_digits (x mod 60)
        /\ format_time x 1
           = two_digits (x / 60) ++ ":" ++ two_digits (x mod 60)).
Proof.
  intros Hx. unfold format_time.
  assert (E : (x <? 0) = false) by (apply Z.ltb_ge; lia).
  rewrite E, (Z.div_small x 3600), (Z.mod_small x 3600) by lia.
  change (0 >? 0) with false. change (0 =? 0) with true.
  change (1 =? 0) with false. change (1 =? 1) with true. cbv iota.
  split.
  - intros Hlt. rewrite (Z.div_small x 60), (Z.mod_small x 60) by lia.
    change (0 >? 0) with false. cbv iota.
    split; [reflexivity | apply two_digits_fmt; lia].
  - intros Hge.
    assert (0 < x / 60) by (apply Z.div_str_pos; lia).
    assert (x / 60 < 60) by (apply Z.div_lt_upper_bound; lia).
    pose proof (Z.mod_pos_bound x 60 ltac:(lia)).
    destruct (Z.gtb_spec (x / 60) 0); [|lia].
    rewrite !two_digits_fmt by lia. split; reflexivity.
Qed.

Lemma format_time_below_one_hour_witness :
  format_time 245 0 = "4:05" /\ format_time 245 1 = "04:05".
Proof.
  apply (proj2 (format_time_below_one_hour 245 ltac:(lia))). lia.
Defined.

End FormatParse.


(** * What the keys can and cannot do *)

Section Keys.

(** The state after the pause key, pressed when no confirmation is awaited
    and the timer is not paused. *)
Lemma on_press_pause st k t :
  awaiting_confirm st = None -> paused st = false -> is_pause_key k = true ->
  fst (on_press st k t) =
    mkState (running st) true (restart_requested st) (quit_requested st)
      None (Some t) (total_paused st).
Proof.
  intros Hn Hp Hk. unfold is_pause_key in Hk. apply char_is_eq in Hk.
  unfold on_press. rewrite Hn, Hp.
  rewrite (char_is_other _ "p" "r" Hk) by discriminate.
  now rewrite (proj2 (char_is_eq _ _) Hk).
Qed.

Lemma on_press_pause_resume st k1 k2 t1 t2 :
  awaiting_confirm st = None -> paused st = false ->
  is_pause_key k1 = true -> is_pause_key k2 = true ->
  fst (on_press (fst (on_press st k1 t1)) k2 t2) =
    mkState (running st) false (restart_requested st) (quit_requested st)
      None None (total_paused st + (to_micro t2 - to_micro t1)).
Proof.
  intros Hn Hp Hk1 Hk2. rewrite (on_press_pause st k1 t1 Hn Hp Hk1).
  unfold is_pause_key in Hk2. apply char_is_eq in Hk2.
  unfold on_press. cbn [awaiting_confirm paused pause_start].
  rewrite (char_is_other _ "p" "r" Hk2) by discriminate.
  now rewrite (proj2 (char_is_eq _ _) Hk2).
Qed.

(** X3: the first pause of a cycle is recorded exactly.  With no time
    paused yet, a pause begun at [t1] and ended at [t2] leaves [total_paused]
    equal to the time from [t1] to [t2], the timer not paused, no
    [pause_start], and every other field as it was. *)
Theorem pause_resume_adds_duration (st : TimerState) (k1 k2 : key)
  (t1 t2 : datetime) :
  awaiting_confirm st = None -> paused st = false -> total_paused st = 0 ->
  is_pause_key k1 = true -> is_pause_key k2 = true ->
  let st2 := fst (on_press (fst (on_press st k1 t1)) k2 t2) in
  total_paused st2 = to_micro t2 - to_micro t1
  /\ paused st2 = false /\ pause_start st2 = None
  /\ running st2 = running st
  /\ restart_requested st2 = restart_requested st
  /\ quit_requested st2 = quit_requested st
  /\ awaiting_confirm st2 = None.
Proof.
  intros Hn Hp Hz Hk1 Hk2 st2. unfold st2.
  rewrite (on_press_pause_resume st k1 k2 t1 t2 Hn Hp Hk1 Hk2).
  cbn. rewrite Hz. repeat split.
Qed.

Lemma pause_resume_adds_duration_witness :
  total_paused
    (fst (on_press
            (fst (on_press TimerState_init (KeyCode (Some "p"))
                    (DT.mk 2026 11 3 10 0 0 0)))
            (KeyCode (Some "P")) (DT.mk 2026 11 3 10 0 7 500000)))
  = to_micro (DT.mk 2026 11 3 10 0 7 500000)
    - to_micro (DT.mk 2026 11 3 10 0 0 0).
Proof.
  apply (pause_resume_adds_duration TimerState_init (KeyCode (Some "p"))
           (KeyCode (Some "P")) (DT.mk 2026 11 3 10 0 0 0)
           (DT.mk 2026 11 3 10 0 7 500000));
    reflexivity.
Defined.

(** X4: in modes 1 and 2 a paused timer stands still: however many steps
    the main thread makes while the timer is paused and no restart or quit
    is requested, every tick is skipped and nothing changes: not the state,
    not the place in the loop, not [OUTPUT.txt], not the console. *)
Theorem paused_timer_stands_still :
  forall has mode time_str date_str display c a evs,
    at_pc c = AtInner a -> (forall target, a <> ToTarget target) ->
    paused (state c) = true ->
    quit_requested (state c) = false -> restart_requested (state c) = false ->
    forallb is_main_step evs = true ->
    fold_left (step has mode time_str date_str display) evs c = c
    /\ (forall t, inner_tick a display (state c) t = Skipped).
Proof.
  intros has mode time_str date_str display c a evs Hpc Ha Hp Hq Hr Hevs.
  assert (Hskip : forall t, inner_tick a display (state c) t = Skipped).
  { intros t. unfold inner_tick. destruct a as [target|d s0|s0].
    - now destruct (Ha target).
    - now rewrite Hp.
    - now rewrite Hp. }
  split; [|exact Hskip].
  induction evs as [|e evs IH]; [reflexivity|].
  cbn [forallb] in Hevs. apply andb_true_iff in Hevs as [He Hevs].
  destruct e as [k now|now|]; try discriminate He.
  cbn [fold_left step].
  assert (E : main_step mode time_str date_str display c now = c).
  { unfold main_step. rewrite Hpc, Hq, Hr. cbn [negb andb].
    now rewrite Hskip. }
  rewrite E. now apply IH.
Qed.

(** A countdown of 90 seconds paused after its first tick. *)
Lemma paused_timer_stands_still_witness :
  fold_left (step true 1 "90" None 0)
    [MainStep (DT.mk 2026 11 3 10 0 5 0); MainStep (DT.mk 2026 11 3 10 0 9 0)]
    (run_timer true 1 "90" None 0 world0
       [MainStep nov3_10h; MainStep (DT.mk 2026 11 3 10 0 1 0);
        KeyPress (KeyCode (Some "p")) (DT.mk 2026 11 3 10 0 2 0)])
  = run_timer true 1 "90" None 0 world0
      [MainStep nov3_10h; MainStep (DT.mk 2026 11 3 10 0 1 0);
       KeyPress (KeyCode (Some "p")) (DT.mk 2026 11 3 10 0 2 0)].
Proof.
  apply (paused_timer_stands_still true 1 "90" None 0
           (run_timer true 1 "90" None 0 world0
              [MainStep nov3_10h; MainStep (DT.mk 2026 11 3 10 0 1 0);
               KeyPress (KeyCode (Some "p")) (DT.mk 2026 11 3 10 0 2 0)])
           (FromDuration 90 nov3_10h)
           [MainStep (DT.mk 2026 11 3 10 0 5 0);
            MainStep (DT.mk 2026 11 3 10 0 9 0)]);
    try reflexivity.
  intros target. discriminate.
Defined.

(** X5: a key never writes [running] and never clears a flag; it sets
    [restart_requested] or [quit_requested] only as the answer [y] to the
    confirmation awaited for that action; and while a confirmation is
    awaited no key, the pause key included, changes the pause fields. *)
Theorem keys_need_confirmation (st : TimerState) (k : key) (now : datetime) :
  let st' := fst (on_press st k now) in
  running st' = running st
  /\ (restart_requested st' = true ->
        restart_requested st = true
        \/ (awaiting_confirm st = Some ConfirmRestart /\ key_char k = Some "y"))
  /\ (quit_requested st' = true ->
        quit_requested st = true
        \/ (awaiting_confirm st = Some ConfirmQuit /\ key_char k = Some "y"))
  /\ (restart_requested st = true -> restart_requested st' = true)
  /\ (quit_requested st = true -> quit_requested st' = true)
  /\ (awaiting_confirm st <> None ->
        paused st' = paused st /\ pause_start st' = pause_start st
        /\ total_paused st' = total_paused st).
Proof.
  unfold on_press.
  destruct (awaiting_confirm st) as [pending|] eqn:Ea.
  - destruct (char_is (key_char k) "y") eqn:Ey.
    + apply char_is_eq in Ey.
      destruct pending; cbn; repeat split; auto.
    + destruct (char_is (key_char k) "n"); cbn; repeat split; auto.
  - destruct (char_is (key_char k) "r"); [cbn; repeat split; auto; congruence|].
    destruct (char_is (key_char k) "p").
    + destruct (paused st); [destruct (pause_start st)|];
        cbn; repeat split; auto; congruence.
    + destruct (char_is (key_char k) "q"); cbn; repeat split; auto; congruence.
Qed.

End Keys.


(** * How a run ends *)

Section RunEnds.

Variables (HAS_PYNPUT : bool) (mode : Z) (time_str : string)
          (date_str : option string) (display : Z).

Local Abbreviation stepR := (step HAS_PYNPUT mode time_str date_str display).
Local Abbreviation runR := (run_timer HAS_PYNPUT mode time_str date_str display).
Local Abbreviation mainR := (main HAS_PYNPUT mode time_str date_str display).

Lemma run_timer_app w evs1 evs2 :
  runR w (evs1 ++ evs2)%list = fold_left stepR evs2 (runR w evs1).
Proof. unfold run_timer. apply fold_left_app. Qed.

Lemma on_press_running st k now :
  running (fst (on_press st k now)) = running st.
Proof.
  unfold on_press.
  destruct (awaiting_confirm st) as [pending|].
  - destruct (char_is (key_char k) "y"); [now destruct pending|].
    now destruct (char_is (key_char k) "n").
  - destruct (char_is (key_char k) "r"); [reflexivity|].
    destruct (char_is (key_char k) "p").
    + destruct (paused st); [destruct (pause_start st)|]; reflexivity.
    + now destruct (char_is (key_char k) "q").
Qed.

Lemma on_press_quit_kept st k now :
  quit_requested st = true -> quit_requested (fst (on_press st k now)) = true.
Proof.
  intros H. unfold on_press.
  destruct (awaiting_confirm st) as [pending|].
  - destruct (char_is (key_char k) "y"); [now destruct pending|].
    now destruct (char_is (key_char k) "n").
  - destruct (char_is (key_char k) "r"); [exact H|].
    destruct (char_is (key_char k) "p").
    + destruct (paused st); [destruct (pause_start st)|]; exact H.
    + now destruct (char_is (key_char k) "q").
Qed.

(** A key press moves neither the main thread nor the file. *)
Lemma key_press_frame c k now :
  let c' := stepR c (KeyPress k now) in
  at_pc c' = at_pc c /\ running (state c') = running (state c)
  /\ output_file (the_world c') = output_file (the_world c)
  /\ writes (the_world c') = writes (the_world c)
  /\ (quit_requested (state c) = true -> quit_requested (state c') = true).
Proof.
  cbn [step]. destruct (HAS_PYNPUT && live (at_pc c)); [|now repeat split].
  pose proof (on_press_running (state c) k now) as Hr.
  pose proof (on_press_quit_kept (state c) k now) as Hq.
  destruct (on_press (state c) k now) as [s out]. cbn [fst] in Hr, Hq.
  destruct (print_all_file out (the_world c)) as [F W].
  now repeat split.
Qed.

Lemma main_step_flags c now :
  let c' := main_step mode time_str date_str display c now in
  (running (state c) = false -> running (state c') = false)
  /\ (quit_requested (state c) = true -> quit_requested (state c') = true).
Proof.
  unfold main_step.
  destruct (at_pc c) as [|a| | |e]; try (now split).
  - destruct (running (state c)) eqn:Er.
    + destruct (cycle_anchors mode time_str date_str now);
        cbn; (split; [discriminate | auto]).
    + cbn. now split.
  - destruct (negb (quit_requested (state c)) && negb (restart_requested (state c)));
      [|now split].
    destruct (inner_tick a display (state c) now); cbn; now split.
  - destruct (quit_requested (state c)) eqn:Eq,
      (restart_requested (state c)) eqn:Es;
      cbn; rewrite ?Es; cbn; (split; intros; congruence).
Qed.

Lemma step_flags c e :
  (running (state c) = false -> running (state (stepR c e)) = false)
  /\ (quit_requested (state c) = true ->
        quit_requested (state (stepR c e)) = true).
Proof.
  destruct e as [k now|now|].
  - destruct (key_press_frame c k now) as (_ & Hr & _ & _ & Hq).
    split; [intros H; now rewrite Hr | exact Hq].
  - apply main_step_flags.
  - cbn [step]. destruct (live (at_pc c)); now split.
Qed.

Lemma fold_flags evs : forall c,
  (running (state c) = false ->
     running (state (fold_left stepR evs c)) = false)
  /\ (quit_requested (state c) = true ->
        quit_requested (state (fold_left stepR evs c)) = true).
Proof.
  induction evs as [|e evs IH]; intros c; [now split|].
  cbn [fold_left]. destruct (step_flags c e) as [Hr Hq].
  destruct (IH (stepR c e)) as [Hr' Hq']. split; auto.
Qed.

(** Once the loop is ending, every step keeps it ending, writes nothing
    and takes the main thread one place nearer the return. *)
Lemma ending_step c e :
  ending c -> is_interrupt e = false ->
  let c' := stepR c e in
  ending c'
  /\ output_file (the_world c') = output_file (the_world c)
  /\ writes (the_world c') = writes (the_world c)
  /\ (if is_main_step e
      then steps_to_return (at_pc c') = pred (steps_to_return (at_pc c))
      else steps_to_return (at_pc c') = steps_to_return (at_pc c)).
Proof.
  intros He Hi. destruct e as [k now|now|]; [| |discriminate Hi].
  - destruct (key_press_frame c k now) as (Hpc & Hr & F & W & Hq).
    cbn zeta. split; [|now rewrite Hpc].
    unfold ending in *. rewrite Hpc.
    destruct (at_pc c); auto.
    + congruence.
    + destruct He as [He|He]; [left; congruence | right; auto].
  - cbn [step is_main_step]. unfold ending in He. unfold main_step, ending.
    destruct (at_pc c) as [|a| | |e] eqn:Hpc.
    + rewrite He. cbn. auto.
    + rewrite He. cbn. auto.
    + destruct (quit_requested (state c)) eqn:Eq.
      * destruct (restart_requested (set_running false (state c)));
          cbn; auto.
      * destruct He as [He|He]; [|discriminate].
        destruct (restart_requested (state c)); cbn; auto.
    + rewrite Hpc. auto.
    + destruct He.
Qed.

Lemma ending_run evs : forall c,
  ending c -> no_interrupt evs = true ->
  (steps_to_return (at_pc c) <= count_main evs)%nat ->
  at_pc (fold_left stepR evs c) = Returned
  /\ output_file (the_world (fold_left stepR evs c)) = output_file (the_world c)
  /\ writes (the_world (fold_left stepR evs c)) = writes (the_world c).
Proof.
  induction evs as [|e evs IH]; intros c He Hn Hc.
  - cbn in Hc. unfold ending in He. cbn [fold_left].
    destruct (at_pc c); cbn in Hc; try lia; try (now destruct He); auto.
  - cbn [no_interrupt forallb] in Hn. apply andb_true_iff in Hn as [Hi Hn].
    apply negb_true_iff in Hi.
    destruct (ending_step c e He Hi) as (He' & F & W & Hs).
    cbn [fold_left].
    destruct (IH (stepR c e) He' Hn) as (A & B & C).
    + unfold count_main in *. cbn [filter] in Hc.
      destruct (is_main_step e); cbn [List.length] in Hc; lia.
    + split; [exact A|]. split; congruence.
Qed.

End RunEnds.

(** X6: [running] is never set back to true and [quit_requested] is never
    cleared: whatever happens after a run has reached a state where
    [running] is false, or one where a quit is requested, it stays so. *)
Theorem run_flags_are_final :
  forall has mode time_str date_str display w evs1 evs2,
    (running (state (run_timer has mode time_str date_str display w evs1))
     = false ->
     running
       (state (run_timer has mode time_str date_str display w
                 (evs1 ++ evs2)%list))
     = false)
    /\ (quit_requested
          (state (run_timer has mode time_str date_str display w evs1))
        = true ->
        quit_requested
          (state (run_timer has mode time_str date_str display w
                    (evs1 ++ evs2)%list))
        = true).
Proof.
  intros. rewrite run_timer_app. apply fold_flags.
Qed.

(** X7: once a quit is confirmed while the inner loop runs, the program
    ends with status 0 after three more steps of the main thread, whatever
    keys are pressed meanwhile, and [OUTPUT.txt] keeps the text written
    last: a quit does not clear it. *)
Theorem quit_ends_with_status_0 :
  forall has mode time_str date_str display w evs1 evs2 a,
    at_pc (run_timer has mode time_str date_str display w evs1) = AtInner a ->
    quit_requested (state (run_timer has mode time_str date_str display w evs1))
    = true ->
    no_interrupt evs2 = true -> (3 <= count_main evs2)%nat ->
    let r := main has mode time_str date_str display w (evs1 ++ evs2)%list in
    snd r = Some 0
    /\ output_file (fst r)
       = output_file
           (the_world (run_timer has mode time_str date_str display w evs1))
    /\ writes (fst r)
       = writes
           (the_world (run_timer has mode time_str date_str display w evs1)).
Proof.
  intros has mode time_str date_str display w evs1 evs2 a Hpc Hq Hn Hc r.
  destruct (ending_run has mode time_str date_str display evs2
              (run_timer has mode time_str date_str display w evs1))
    as (A & B & C).
  - unfold ending. now rewrite Hpc.
  - exact Hn.
  - now rewrite Hpc.
  - unfold r, main. rewrite run_timer_app, A. now repeat split.
Qed.

(** A countdown of 90 seconds that is quit after its first tick. *)
Lemma quit_ends_with_status_0_witness :
  snd (main true 1 "90" None 0 world0
         ([MainStep nov3_10h; MainStep (DT.mk 2026 11 3 10 0 1 0);
           KeyPress (KeyCode (Some "q")) (DT.mk 2026 11 3 10 0 1 5);
           KeyPress (KeyCode (Some "y")) (DT.mk 2026 11 3 10 0 1 9)]
          ++ [MainStep (DT.mk 2026 11 3 10 0 2 0);
              KeyPress (KeyCode (Some "r")) (DT.mk 2026 11 3 10 0 2 5);
              MainStep (DT.mk 2026 11 3 10 0 3 0);
              MainStep (DT.mk 2026 11 3 10 0 4 0)])%list)
  = Some 0
  /\ output_file
       (fst (main true 1 "90" None 0 world0
               ([MainStep nov3_10h; MainStep (DT.mk 2026 11 3 10 0 1 0);
                 KeyPress (KeyCode (Some "q")) (DT.mk 2026 11 3 10 0 1 5);
                 KeyPress (KeyCode (Some "y")) (DT.mk 2026 11 3 10 0 1 9)]
                ++ [MainStep (DT.mk 2026 11 3 10 0 2 0);
                    KeyPress (KeyCode (Some "r")) (DT.mk 2026 11 3 10 0 2 5);
                    MainStep (DT.mk 2026 11 3 10 0 3 0);
                    MainStep (DT.mk 2026 11 3 10 0 4 0)])%list))
     = "1:29".
Proof.
  destruct (quit_ends_with_status_0 true 1 "90" None 0 world0
              [MainStep nov3_10h; MainStep (DT.mk 2026 11 3 10 0 1 0);
               KeyPress (KeyCode (Some "q")) (DT.mk 2026 11 3 10 0 1 5);
               KeyPress (KeyCode (Some "y")) (DT.mk 2026 11 3 10 0 1 9)]
              [MainStep (DT.mk 2026 11 3 10 0 2 0);
               KeyPress (KeyCode (Some "r")) (DT.mk 2026 11 3 10 0 2 5);
               MainStep (DT.mk 2026 11 3 10 0 3 0);
               MainStep (DT.mk 2026 11 3 10 0 4 0)]
              (FromDuration 90 nov3_10h)
              eq_refl eq_refl eq_refl ltac:(cbn; lia)) as (A & B & _).
  split; [exact A | exact B].
Defined.

Lemma run_flags_are_final_witness :
  running
    (state (run_timer true 1 "1" None 0 world0
              ([MainStep nov3_10h; MainStep (DT.mk 2026 11 3 10 0 2 0)]
               ++ [KeyPress (KeyCode (Some "r")) (DT.mk 2026 11 3 10 0 3 0);
                   KeyPress (KeyCode (Some "y")) (DT.mk 2026 11 3 10 0 4 0);
                   MainStep (DT.mk 2026 11 3 10 0 5 0)])%list))
  = false.
Proof.
  apply (proj1 (run_flags_are_final true 1 "1" None 0 world0
                  [MainStep nov3_10h; MainStep (DT.mk 2026 11 3 10 0 2 0)]
                  [KeyPress (KeyCode (Some "r")) (DT.mk 2026 11 3 10 0 3 0);
                   KeyPress (KeyCode (Some "y")) (DT.mk 2026 11 3 10 0 4 0);
                   MainStep (DT.mk 2026 11 3 10 0 5 0)])).
  reflexivity.
Defined.

(** X8: when a countdown reaches zero the text of zero is written and the
    program ends with status 0 after two more steps of the main thread.
    It does not start again, whatever keys are pressed after the time is
    up, a confirmed restart included. *)
Theorem time_up_ends_run :
  forall has mode time_str date_str display w evs1 evs2 a now v,
    at_pc (run_timer has mode time_str date_str display w evs1) = AtInner a ->
    quit_requested (state (run_timer has mode time_str date_str display w evs1))
    = false ->
    restart_requested
      (state (run_timer has mode time_str date_str display w evs1))
    = false ->
    inner_tick a display
      (state (run_timer has mode time_str date_str display w evs1)) now
    = TimeUp v ->
    no_interrupt evs2 = true -> (2 <= count_main evs2)%nat ->
    let r := main has mode time_str date_str display w
               (evs1 ++ MainStep now :: evs2)%list in
    snd r = Some 0
    /\ output_file (fst r) = format_time 0 display
    /\ at_pc (run_timer has mode time_str date_str display w
                (evs1 ++ MainStep now :: evs2)%list)
       = Returned.
Proof.
  intros has mode time_str date_str display w evs1 evs2 a now v
    Hpc Hq Hr Ht Hn Hc r.
  set (c := run_timer has mode time_str date_str display w evs1) in *.
  set (c1 := main_step mode time_str date_str display c now).
  assert (E1 : at_pc c1 = AfterInner /\ running (state c1) = false
               /\ output_file (the_world c1) = format_time 0 display).
  { unfold c1, main_step. rewrite Hpc, Hq, Hr, Ht. cbn. now repeat split. }
  destruct E1 as (P1 & R1 & F1).
  destruct (ending_run has mode time_str date_str display evs2 c1)
    as (A & B & C).
  - unfold ending. rewrite P1. now left.
  - exact Hn.
  - now rewrite P1.
  - assert (E : run_timer has mode time_str date_str display w
                  (evs1 ++ MainStep now :: evs2)%list
                = fold_left (step has mode time_str date_str display) evs2 c1).
    { rewrite run_timer_app. reflexivity. }
    unfold r, main. rewrite E, A. cbn [fst snd].
    split; [reflexivity|]. split; [congruence | reflexivity].
Qed.

(** A countdown of one second; [r] and [y] are pressed after it is up. *)
Lemma time_up_ends_run_witness :
  snd (main true 1 "1" None 0 world0
         ([MainStep nov3_10h]
          ++ MainStep (DT.mk 2026 11 3 10 0 2 0)
             :: [KeyPress (KeyCode (Some "r")) (DT.mk 2026 11 3 10 0 3 0);
                 KeyPress (KeyCode (Some "y")) (DT.mk 2026 11 3 10 0 4 0);
                 MainStep (DT.mk 2026 11 3 10 0 5 0);
                 MainStep (DT.mk 2026 11 3 10 0 6 0)])%list)
  = Some 0
  /\ output_file
       (fst (main true 1 "1" None 0 world0
               ([MainStep nov3_10h]
                ++ MainStep (DT.mk 2026 11 3 10 0 2 0)
                   :: [KeyPress (KeyCode (Some "r")) (DT.mk 2026 11 3 10 0 3 0);
                       KeyPress (KeyCode (Some "y")) (DT.mk 2026 11 3 10 0 4 0);
                       MainStep (DT.mk 2026 11 3 10 0 5 0);
                       MainStep (DT.mk 2026 11 3 10 0 6 0)])%list))
     = format_time 0 0.
Proof.
  destruct (time_up_ends_run true 1 "1" None 0 world0
              [MainStep nov3_10h]
              [KeyPress (KeyCode (Some "r")) (DT.mk 2026 11 3 10 0 3 0);
               KeyPress (KeyCode (Some "y")) (DT.mk 2026 11 3 10 0 4 0);
               MainStep (DT.mk 2026 11 3 10 0 5 0);
               MainStep (DT.mk 2026 11 3 10 0 6 0)]
              (FromDuration 1 nov3_10h) (DT.mk 2026 11 3 10 0 2 0) (-1000000)
              eq_refl eq_refl eq_refl eq_refl eq_refl ltac:(cbn; lia))
    as (A & B & _).
  split; [exact A | exact B].
Defined.

(** * What a run writes *)

Section RunWrites.

Variables (HAS_PYNPUT : bool) (mode : Z) (time_str : string)
          (date_str : option string) (display : Z).

Local Abbreviation stepW := (step HAS_PYNPUT mode time_str date_str display).

Lemma formatted_any v : formatted display (format_time v display).
Proof.
  exists (Z.max 0 v). split; [lia | apply format_time_clamp].
Qed.

Lemma inner_tick_published a st now v out :
  inner_tick a display st now = Published v out -> formatted display out.
Proof.
  unfold inner_tick. destruct a as [target|duration start|start].
  - destruct (_ <=? 0); [discriminate|].
    intros [= _ <-]. apply formatted_any.
  - destruct (paused st); [discriminate|].
    destruct (float_overflow duration); [discriminate|].
    destruct (_ <=? 0); [discriminate|].
    intros [= _ <-]. apply formatted_any.
  - destruct (paused st); [discriminate|].
    intros [= _ <-]. apply formatted_any.
Qed.

(** What a step may add to the file. *)
Lemma step_writes c e :
  (output_file (the_world (stepW c e)) = output_file (the_world c)
   /\ writes (the_world (stepW c e)) = writes (the_world c))
  \/ (exists out,
        formatted display out
        /\ output_file (the_world (stepW c e)) = out
        /\ writes (the_world (stepW c e)) = out :: writes (the_world c)).
Proof.
  destruct e as [k now|now|].
  - left. destruct (key_press_frame HAS_PYNPUT mode time_str date_str display
                      c k now) as (_ & _ & F & W & _).
    now split.
  - cbn [step]. unfold main_step.
    destruct (at_pc c) as [|a| | |e].
    + destruct (running (state c));
        [destruct (cycle_anchors mode time_str date_str now)|];
        left; now split.
    + destruct (negb (quit_requested (state c)) && negb (restart_requested (state c)));
        [|left; now split].
      destruct (inner_tick a display (state c) now) as [|v out|v|e] eqn:Ht.
      * left; now split.
      * right. exists out. split; [|now split].
        now apply (inner_tick_published a (state c) now v).
      * right. exists (format_time 0 display).
        split; [apply formatted_any | now split].
      * left; now split.
    + destruct (quit_requested (state c));
        [destruct (restart_requested (set_running false (state c)))
        |destruct (restart_requested (state c))];
        left; now split.
    + left; now split.
    + left; now split.
  - cbn [step]. destruct (live (at_pc c)); left; now split.
Qed.

Lemma fold_writes evs : forall c,
  (forall s, In s (writes (the_world (fold_left stepW evs c))) ->
     In s (writes (the_world c)) \/ formatted display s)
  /\ (output_file (the_world (fold_left stepW evs c)) = output_file (the_world c)
      \/ formatted display (output_file (the_world (fold_left stepW evs c)))).
Proof.
  induction evs as [|e evs IH]; intros c; [split; auto|].
  cbn [fold_left]. destruct (IH (stepW c e)) as [IW IF].
  destruct (step_writes c e) as [[F W]|(out & Hf & F & W)].
  - rewrite F, W in *. now split.
  - split.
    + intros s Hs. destruct (IW s Hs) as [Hin|Hfm]; [|now right].
      rewrite W in Hin. destruct Hin as [<-|Hin]; [now right | now left].
    + destruct IF as [IF|IF]; [|now right].
      right. rewrite IF, F. exact Hf.
Qed.

End RunWrites.

(** X9: everything [run_timer] writes to [OUTPUT.txt] is a time formatted
    for the display mode: at any point of a run the file holds what it held
    before the run or the text [format_time v display] of some [v >= 0], and
    so does every text written during the run. *)
Theorem run_writes_formatted_times :
  forall has mode time_str date_str display w evs,
    (forall s,
       In s (writes (the_world
               (run_timer has mode time_str date_str display w evs))) ->
       In s (writes w) \/ formatted display s)
    /\ (output_file
          (the_world (run_timer has mode time_str date_str display w evs))
        = output_file w
        \/ formatted display
             (output_file
                (the_world
                   (run_timer has mode time_str date_str display w evs)))).
Proof.
  intros. unfold run_timer.
  apply (fold_writes has mode time_str date_str display evs (run_start has w)).
Qed.


(** * Runs without the keyboard, counting up, and restarts *)

Section RunModes.

Variables (HAS_PYNPUT : bool) (mode : Z) (time_str : string)
          (date_str : option string) (display : Z).

Local Abbreviation stepM := (step HAS_PYNPUT mode time_str date_str display).

(** The fields only the listener sets are as [TimerState()] set them. *)
Lemma untouched_main_step c now :
  let c' := main_step mode time_str date_str display c now in
  paused (state c) = false /\ restart_requested (state c) = false
  /\ quit_requested (state c) = false /\ awaiting_confirm (state c) = None
  /\ pause_start (state c) = None /\ total_paused (state c) = 0 ->
  paused (state c') = false /\ restart_requested (state c') = false
  /\ quit_requested (state c') = false /\ awaiting_confirm (state c') = None
  /\ pause_start (state c') = None /\ total_paused (state c') = 0.
Proof.
  cbn zeta. intros (P & R & Q & A & S & T). unfold main_step.
  destruct (at_pc c) as [|a| | |e].
  - destruct (running (state c));
      [destruct (cycle_anchors mode time_str date_str now)|];
      cbn; now repeat split.
  - rewrite Q, R. cbn [negb andb].
    destruct (inner_tick a display (state c) now); cbn; now repeat split.
  - rewrite Q, R. cbn. now repeat split.
  - now repeat split.
  - now repeat split.
Qed.

(** In the inner loop [running] holds. *)
Lemma inner_running_step c e :
  (forall a, at_pc c = AtInner a -> running (state c) = true) ->
  forall a, at_pc (stepM c e) = AtInner a -> running (state (stepM c e)) = true.
Proof.
  intros H a. destruct e as [k now|now|].
  - destruct (key_press_frame HAS_PYNPUT mode time_str date_str display c k now)
      as (Hpc & Hr & _).
    rewrite Hpc, Hr. apply H.
  - cbn [step]. unfold main_step.
    destruct (at_pc c) as [|a0| | |e] eqn:Hpc.
    + destruct (running (state c)) eqn:Er;
        [destruct (cycle_anchors mode time_str date_str now)|];
        cbn; congruence.
    + destruct (negb (quit_requested (state c)) && negb (restart_requested (state c)));
        [|cbn; congruence].
      destruct (inner_tick a0 display (state c) now); cbn; try congruence.
      * intros _. exact (H a0 eq_refl).
      * intros _. exact (H a0 eq_refl).
    + destruct (quit_requested (state c));
        [destruct (restart_requested (set_running false (state c)))
        |destruct (restart_requested (state c))];
        cbn; congruence.
    + congruence.
    + congruence.
  - cbn [step]. destruct (live (at_pc c)); cbn; [congruence | apply H].
Qed.

Lemma inner_running_fold evs : forall c,
  (forall a, at_pc c = AtInner a -> running (state c) = true) ->
  forall a, at_pc (fold_left stepM evs c) = AtInner a ->
            running (state (fold_left stepM evs c)) = true.
Proof.
  induction evs as [|e evs IH]; intros c H; [exact H|].
  cbn [fold_left]. apply IH. now apply inner_running_step.
Qed.

End RunModes.

(** X10: without [pynput] no key has any effect: in every state of a run
    the timer is not paused, no restart and no quit is requested, no
    confirmation is awaited and no time was spent paused. *)
Theorem no_pynput_no_controls :
  forall mode time_str date_str display w evs,
    let s := state (run_timer false mode time_str date_str display w evs) in
    paused s = false /\ restart_requested s = false
    /\ quit_requested s = false /\ awaiting_confirm s = None
    /\ pause_start s = None /\ total_paused s = 0.
Proof.
  intros mode time_str date_str display w evs. cbn zeta. unfold run_timer.
  assert (H : forall c,
             paused (state c) = false /\ restart_requested (state c) = false
             /\ quit_requested (state c) = false
             /\ awaiting_confirm (state c) = None
             /\ pause_start (state c) = None /\ total_paused (state c) = 0 ->
             let c' := fold_left (step false mode time_str date_str display) evs c in
             paused (state c') = false /\ restart_requested (state c') = false
             /\ quit_requested (state c') = false
             /\ awaiting_confirm (state c') = None
             /\ pause_start (state c') = None /\ total_paused (state c') = 0).
  { induction evs as [|e evs IH]; intros c Hc; [exact Hc|].
    cbn [fold_left]. apply IH. destruct e as [k now|now|].
    - exact Hc.
    - now apply untouched_main_step.
    - cbn [step]. now destruct (live (at_pc c)). }
  apply H. now repeat split.
Qed.

(** X11: counting up has no end of its own.  In a mode other than 0 and 1
    the loop returns only after a quit was requested, nothing but a
    keyboard interrupt raises, and the program never ends with status 1. *)
Theorem count_up_ends_only_by_quit :
  forall has mode time_str date_str display w evs,
    mode <> 0 -> mode <> 1 ->
    let c := run_timer has mode time_str date_str display w evs in
    (at_pc c = Returned -> quit_requested (state c) = true)
    /\ (forall e, at_pc c = Raised e -> e = KeyboardInterrupt)
    /\ snd (main has mode time_str date_str display w evs) <> Some 1.
Proof.
  intros has mode time_str date_str display w evs H0 H1.
  assert (Hanch : forall now,
             cycle_anchors mode time_str date_str now = Ok (CountUp now)).
  { intros now. unfold cycle_anchors.
    destruct (Z.eqb_spec mode 0); [contradiction|].
    destruct (Z.eqb_spec mode 1); [contradiction | reflexivity]. }
  assert (Hinv : forall evs c,
    ((running (state c) = false -> quit_requested (state c) = true)
     /\ (at_pc c = Returned -> quit_requested (state c) = true)
     /\ (forall a, at_pc c = AtInner a -> exists t, a = CountUp t)
     /\ (forall e, at_pc c = Raised e -> e = KeyboardInterrupt)) ->
    let c' := fold_left (step has mode time_str date_str display) evs c in
    (running (state c') = false -> quit_requested (state c') = true)
    /\ (at_pc c' = Returned -> quit_requested (state c') = true)
    /\ (forall a, at_pc c' = AtInner a -> exists t, a = CountUp t)
    /\ (forall e, at_pc c' = Raised e -> e = KeyboardInterrupt)).
  { clear evs. induction evs as [|e evs IH]; intros c Hc; [exact Hc|].
    cbn [fold_left]. apply IH. destruct Hc as (Hr & Hret & Ha & He).
    destruct e as [k now|now|].
    - destruct (key_press_frame has mode time_str date_str display c k now)
        as (Hpc & Hrun & _ & _ & Hq).
      rewrite Hpc, Hrun.
      split; [intros X; apply Hq, Hr, X|].
      split; [intros X; apply Hq, Hret, X|]. now split.
    - cbn [step]. unfold main_step.
      destruct (at_pc c) as [|a| | |e] eqn:Hpc.
      + destruct (running (state c)) eqn:Er.
        * rewrite Hanch. cbn. repeat split; try congruence.
          intros a [= <-]. now exists now.
        * cbn. repeat split; try congruence; intros; now apply Hr.
      + destruct (Ha a eq_refl) as [t ->].
        destruct (negb (quit_requested (state c)) && negb (restart_requested (state c)));
          [|cbn; repeat split; try congruence; exact Hr].
        cbn [inner_tick]. destruct (paused (state c)).
        * rewrite Hpc. repeat split; try congruence; [exact Hr | exact Ha].
        * cbn. repeat split; try congruence; [exact Hr|].
          intros a [= <-]. now exists t.
      + destruct (quit_requested (state c)) eqn:Eq.
        * destruct (restart_requested (set_running false (state c)));
            cbn; repeat split; congruence.
        * destruct (restart_requested (state c));
            cbn; repeat split; try congruence;
            intros X; specialize (Hr X); congruence.
      + rewrite Hpc. repeat split; try congruence; [exact Hr | exact Hret].
      + rewrite Hpc. repeat split; try congruence; [exact Hr | exact He].
    - cbn [step]. destruct (live (at_pc c)); [|now repeat split].
      cbn. repeat split; try congruence; exact Hr. }
  cbn zeta.
  destruct (Hinv evs (run_start has w)) as (_ & Hret & _ & He).
  { cbn. repeat split; congruence. }
  fold (run_timer has mode time_str date_str display w evs) in Hret, He.
  split; [exact Hret|]. split; [exact He|].
  unfold main.
  destruct (at_pc (run_timer has mode time_str date_str display w evs))
    as [|a| | |e] eqn:Hpc; cbn; try discriminate.
  rewrite (He e eq_refl). cbn. discriminate.
Qed.

Lemma count_up_ends_only_by_quit_witness :
  snd (main true 2 "0" None 2 world0
         [MainStep nov3_10h; MainStep (DT.mk 2026 11 3 10 0 1 0);
          KeyPress (KeyCode (Some "q")) (DT.mk 2026 11 3 10 0 1 5);
          KeyPress (KeyCode (Some "y")) (DT.mk 2026 11 3 10 0 1 9);
          MainStep (DT.mk 2026 11 3 10 0 2 0);
          MainStep (DT.mk 2026 11 3 10 0 3 0);
          MainStep (DT.mk 2026 11 3 10 0 4 0)])
  <> Some 1.
Proof.
  apply (count_up_ends_only_by_quit true 2 "0" None 2 world0
           [MainStep nov3_10h; MainStep (DT.mk 2026 11 3 10 0 1 0);
            KeyPress (KeyCode (Some "q")) (DT.mk 2026 11 3 10 0 1 5);
            KeyPress (KeyCode (Some "y")) (DT.mk 2026 11 3 10 0 1 9);
            MainStep (DT.mk 2026 11 3 10 0 2 0);
            MainStep (DT.mk 2026 11 3 10 0 3 0);
            MainStep (DT.mk 2026 11 3 10 0 4 0)]);
    discriminate.
Defined.

(** X12: a confirmed restart begins a new cycle.  Three steps of the main
    thread after the restart was requested in the inner loop, the state is
    the one before with the fields of the cycle reset, and the anchors are
    those computed from the clock of the third step; nothing was written to
    [OUTPUT.txt] meanwhile. *)
Theorem restart_begins_new_cycle :
  forall has mode time_str date_str display w evs a t1 t2 t3,
    at_pc (run_timer has mode time_str date_str display w evs) = AtInner a ->
    restart_requested (state (run_timer has mode time_str date_str display w evs))
    = true ->
    quit_requested (state (run_timer has mode time_str date_str display w evs))
    = false ->
    let c := run_timer has mode time_str date_str display w evs in
    let c' := run_timer has mode time_str date_str display w
                (evs ++ [MainStep t1; MainStep t2; MainStep t3])%list in
    state c' = cycle_reset (state c)
    /\ at_pc c' = match cycle_anchors mode time_str date_str t3 with
                  | Ok a' => AtInner a'
                  | Raise e => Raised e
                  end
    /\ writes (the_world c') = writes (the_world c)
    /\ output_file (the_world c') = output_file (the_world c).
Proof.
  intros has mode time_str date_str display w evs a t1 t2 t3 Hpc Hr Hq c c'.
  assert (Hrun : running (state c) = true).
  { apply (inner_running_fold has mode time_str date_str display evs
             (run_start has w)) with (a := a); [discriminate | exact Hpc]. }
  unfold c'. rewrite run_timer_app. fold c. cbn [fold_left step].
  fold c in Hpc, Hr, Hq.
  assert (E1 : main_step mode time_str date_str display c t1
               = mkConfig AfterInner (state c) (the_world c)).
  { unfold main_step. now rewrite Hpc, Hq, Hr. }
  rewrite E1.
  assert (E2 : main_step mode time_str date_str display
                 (mkConfig AfterInner (state c) (the_world c)) t2
               = mkConfig AtOuter (state c)
                   (print (Line (PyStr.nl ++ "Restarting..." ++ PyStr.nl))
                      (the_world c))).
  { unfold main_step. cbn [at_pc state the_world]. now rewrite Hq, Hr. }
  rewrite E2. unfold main_step. cbn [at_pc state the_world]. rewrite Hrun.
  destruct (cycle_anchors mode time_str date_str t3); cbn; now repeat split.
Qed.

(** A countdown of 90 seconds restarted after its first tick: the new
    cycle counts from the clock of the third step after the restart. *)
Lemma restart_begins_new_cycle_witness :
  at_pc (run_timer true 1 "90" None 0 world0
           ([MainStep nov3_10h; MainStep (DT.mk 2026 11 3 10 0 30 0);
             KeyPress (KeyCode (Some "p")) (DT.mk 2026 11 3 10 0 31 0);
             KeyPress (KeyCode (Some "r")) (DT.mk 2026 11 3 10 0 32 0);
             KeyPress (KeyCode (Some "y")) (DT.mk 2026 11 3 10 0 33 0)]
            ++ [MainStep (DT.mk 2026 11 3 10 0 34 0);
                MainStep (DT.mk 2026 11 3 10 0 35 0);
                MainStep (DT.mk 2026 11 3 10 0 36 0)])%list)
  = AtInner (FromDuration 90 (DT.mk 2026 11 3 10 0 36 0))
  /\ paused (state (run_timer true 1 "90" None 0 world0
           ([MainStep nov3_10h; MainStep (DT.mk 2026 11 3 10 0 30 0);
             KeyPress (KeyCode (Some "p")) (DT.mk 2026 11 3 10 0 31 0);
             KeyPress (KeyCode (Some "r")) (DT.mk 2026 11 3 10 0 32 0);
             KeyPress (KeyCode (Some "y")) (DT.mk 2026 11 3 10 0 33 0)]
            ++ [MainStep (DT.mk 2026 11 3 10 0 34 0);
                MainStep (DT.mk 2026 11 3 10 0 35 0);
                MainStep (DT.mk 2026 11 3 10 0 36 0)])%list))
     = false.
Proof.
  destruct (restart_begins_new_cycle true 1 "90" None 0 world0
              [MainStep nov3_10h; MainStep (DT.mk 2026 11 3 10 0 30 0);
               KeyPress (KeyCode (Some "p")) (DT.mk 2026 11 3 10 0 31 0);
               KeyPress (KeyCode (Some "r")) (DT.mk 2026 11 3 10 0 32 0);
               KeyPress (KeyCode (Some "y")) (DT.mk 2026 11 3 10 0 33 0)]
              (FromDuration 90 nov3_10h)
              (DT.mk 2026 11 3 10 0 34 0) (DT.mk 2026 11 3 10 0 35 0)
              (DT.mk 2026 11 3 10 0 36 0) eq_refl eq_refl eq_refl)
    as (S & P & _).
  split; [exact P|]. rewrite S. reflexivity.
Defined.


(** * The prompt sequence and the start of [main] *)

Section Prompt.

Lemma parse_time_value_error s e :
  parse_time s = Raise e -> exists o, e = ValueError o.
Proof.
  intros H. pose proof (parse_time_raises s e H) as Hk.
  destruct e as [o|o|]; [now exists o | |discriminate Hk].
  destruct o; discriminate Hk.
Qed.

Lemma int_value_error s e :
  PyStr.int s = Raise e -> e = ValueError IntLiteral.
Proof.
  unfold PyStr.int. destruct (PyStr.int_opt s); [discriminate|].
  now intros [= <-].
Qed.

Lemma in_012 m :
  ((m =? 0) || (m =? 1) || (m =? 2)) = true <-> m = 0 \/ m = 1 \/ m = 2.
Proof.
  rewrite !orb_true_iff, !Z.eqb_eq. tauto.
Qed.

(** The loop for the mode ends with 0, 1 or 2, or at the end of the
    input. *)
Lemma ask_mode_result inputs :
  match fst (ask_mode inputs) with
  | Got m _ => m = 0 \/ m = 1 \/ m = 2
  | Eof => True
  | Failed _ => False
  end.
Proof.
  induction inputs as [|l rest IH]; cbn [ask_mode fst]; [exact I|].
  destruct (PyStr.int (PyStr.strip l)) as [m|e] eqn:E.
  - destruct ((m =? 0) || (m =? 1) || (m =? 2)) eqn:B.
    + cbn. now apply in_012.
    + destruct (ask_mode rest). exact IH.
  - rewrite (int_value_error _ _ E). destruct (ask_mode rest). exact IH.
Qed.

Lemma ask_time_result inputs :
  match fst (ask_time inputs) with
  | Got t _ => exists n, parse_time t = Ok n
  | Eof => True
  | Failed _ => False
  end.
Proof.
  induction inputs as [|l rest IH]; cbn [ask_time fst]; [exact I|].
  cbn zeta. destruct (parse_time (PyStr.strip l)) as [n|e] eqn:E.
  - cbn. now exists n.
  - destruct (parse_time_value_error _ _ E) as [o ->].
    destruct (ask_time rest). exact IH.
Qed.

Lemma ask_display_result inputs :
  match fst (ask_display inputs) with
  | Got d _ => d = 0 \/ d = 1 \/ d = 2
  | Eof => True
  | Failed _ => False
  end.
Proof.
  induction inputs as [|l rest IH]; cbn [ask_display fst]; [exact I|].
  cbn zeta.
  destruct (if String.eqb (PyStr.strip l) "" then Ok 0
            else PyStr.int (PyStr.strip l)) as [d|e] eqn:E.
  - destruct ((d =? 0) || (d =? 1) || (d =? 2)) eqn:B.
    + cbn. now apply in_012.
    + destruct (ask_display rest). exact IH.
  - assert (e = ValueError IntLiteral) as ->.
    { destruct (String.eqb (PyStr.strip l) ""); [discriminate|].
      now apply (int_value_error (PyStr.strip l)). }
    destruct (ask_display rest). exact IH.
Qed.

(** [show_tui] by its four questions. *)
Lemma show_tui_done inputs mode time_str date_str display rest out :
  show_tui inputs = TuiDone mode time_str date_str display rest out ->
  exists in1 in2 in3,
    fst (ask_mode inputs) = Got mode in1
    /\ fst (if negb (mode =? 2) then ask_time in1 else (Got "0" in1, []))
       = Got time_str in2
    /\ fst (if mode =? 0 then ask_date in2 else (Got None in2, []))
       = Got date_str in3
    /\ fst (ask_display in3) = Got display rest.
Proof.
  unfold show_tui.
  destruct (ask_mode inputs) as [[m in1| |e] o1]; try discriminate.
  destruct (if negb (m =? 2) then ask_time in1 else (Got "0" in1, []))
    as [[t in2| |e] o2] eqn:Et; try discriminate.
  destruct (m =? 0) eqn:Em.
  - destruct (ask_date in2) as [[d in3| |e] o3] eqn:Ed; try discriminate.
    destruct (ask_display in3) as [[dm in4| |e] o4] eqn:Edm; try discriminate.
    intros [= <- <- <- <- <- _]. exists in1, in2, in3.
    rewrite Et, Em, Ed, Edm. now repeat split.
  - destruct (ask_display in2) as [[dm in4| |e] o4] eqn:Edm; try discriminate.
    intros [= <- <- <- <- <- _]. exists in1, in2, in2.
    rewrite Et, Em, Edm. now repeat split.
Qed.

End Prompt.

(** A time with a separator inside is refused and asked again: the next
    line becomes the time. *)
Example show_tui_refuses_separator :
  tui_config (show_tui ["1"; "1:" ++ chr_gs ++ "30"; "2"; "0"])
  = Some (1, "2", None, 0, []).
Proof. reflexivity. Qed.

(** X13: the prompt sequence returns valid parameters only: the mode and
    the display format are among 0, 1 and 2, the time is a text
    [parse_time] accepts (["0"] in mode 2, where no time is asked), and a
    date is returned in mode 0 only and is never the empty text.  The date
    itself is not checked. *)
Theorem show_tui_returns_valid_parameters :
  forall inputs mode time_str date_str display rest out,
    show_tui inputs = TuiDone mode time_str date_str display rest out ->
    (mode = 0 \/ mode = 1 \/ mode = 2)
    /\ (display = 0 \/ display = 1 \/ display = 2)
    /\ (exists n, parse_time time_str = Ok n)
    /\ (mode = 2 -> time_str = "0")
    /\ (mode <> 0 -> date_str = None)
    /\ date_str <> Some "".
Proof.
  intros inputs mode time_str date_str display rest out H.
  destruct (show_tui_done _ _ _ _ _ _ _ H) as (in1 & in2 & in3 & A & B & C & D).
  pose proof (ask_mode_result inputs) as Hm. rewrite A in Hm.
  pose proof (ask_display_result in3) as Hd. rewrite D in Hd.
  split; [exact Hm|]. split; [exact Hd|].
  split; [|split; [|split]].
  - destruct (mode =? 2); cbn [negb] in B.
    + injection B as <- _. now exists 0.
    + pose proof (ask_time_result in1) as Ht. now rewrite B in Ht.
  - intros ->. cbn in B. now injection B as <- _.
  - intros Hne. destruct (Z.eqb_spec mode 0); [contradiction|].
    cbn in C. now injection C as <- _.
  - destruct (mode =? 0); [|cbn in C; injection C as <- _; discriminate].
    unfold ask_date in C. destruct in2 as [|l in2']; [discriminate|].
    cbn in C. injection C as <- _.
    destruct (String.eqb_spec (PyStr.strip l) ""); [discriminate|].
    congruence.
Qed.

Lemma show_tui_returns_valid_parameters_witness :
  (1 = 0 \/ 1 = 1 \/ 1 = 2)
  /\ (0 = 0 \/ 0 = 1 \/ 0 = 2)
  /\ (exists n, parse_time "1:30" = Ok n)
  /\ (1 = 2 -> "1:30" = "0")
  /\ (1 <> 0 -> @None string = None)
  /\ @None string <> Some "".
Proof.
  apply (show_tui_returns_valid_parameters
           ["x"; "7"; " 1 "; "1:75"; "1:30"; "9"; ""; "left"]
           1 "1:30" None 0 ["left"]
           (match show_tui ["x"; "7"; " 1 "; "1:75"; "1:30"; "9"; ""; "left"] with
            | TuiDone _ _ _ _ _ out => out
            | _ => []
            end)).
  vm_compute. reflexivity.
Defined.



(** * The whole of [main] *)

Section MainEntry.

Variables (HAS_PYNPUT : bool) (mode : Z) (time_str : string)
          (date_str : option string) (display : Z).

Local Abbreviation stepE := (step HAS_PYNPUT mode time_str date_str display).




End MainEntry.

(** X15: when exactly one of [--mode] and [--time] is given, [main] prints
    the error and exits with status 1; the timer does not run and
    [OUTPUT.txt] is not touched. *)
Theorem main_entry_needs_mode_and_time :
  forall has args inputs w evs,
    (arg_mode args = None /\ arg_time args <> None)
    \/ (arg_mode args <> None /\ arg_time args = None) ->
    let r := main_entry has args inputs w evs in
    snd r = Some 1
    /\ output_file (snd (fst r)) = output_file w
    /\ writes (snd (fst r)) = writes w
    /\ fst (fst r) = [].
Proof.
  intros has args inputs w evs H. unfold main_entry.
  destruct (arg_mode args) as [m|], (arg_time args) as [t|];
    try (cbn; now repeat split).
  - destruct H as [[H _]|[_ H]]; discriminate.
  - destruct H as [[_ H]|[H _]]; now destruct H.
Qed.

Lemma main_entry_needs_mode_and_time_witness :
  snd (main_entry true (mkArgs (Some 1) None None 0) [] world0 [MainStep nov3_10h])
  = Some 1
  /\ output_file
       (snd (fst (main_entry true (mkArgs (Some 1) None None 0) [] world0
                    [MainStep nov3_10h])))
     = output_file world0
  /\ writes
       (snd (fst (main_entry true (mkArgs (Some 1) None None 0) [] world0
                    [MainStep nov3_10h])))
     = writes world0
  /\ fst (fst (main_entry true (mkArgs (Some 1) None None 0) [] world0
                 [MainStep nov3_10h]))
     = [].
Proof.
  apply (main_entry_needs_mode_and_time true (mkArgs (Some 1) None None 0) []
           world0 [MainStep nov3_10h]).
  right. split; [discriminate | reflexivity].
Defined.





(** A duration of 310 digits passes the prompt; the first tick of the
    countdown cannot convert it to a float, and the program ends with
    status 1. *)
Example huge_duration_fails :
  tui_config (show_tui ["1"; String "1" (PyStr.zeros 309); "0"])
  = Some (1, String "1" (PyStr.zeros 309), None, 0, [])
  /\ at_pc (run_timer true 1 (String "1" (PyStr.zeros 309)) None 0 world0
              [MainStep nov3_10h; MainStep (DT.mk 2026 11 3 10 0 0 100000)])
     = Raised (OverflowError FloatConversion)
  /\ snd (main_entry true (mkArgs None None None 0)
            ["1"; String "1" (PyStr.zeros 309); "0"] world0
            [MainStep nov3_10h; MainStep (DT.mk 2026 11 3 10 0 0 100000)])
     = Some 1.
Proof. repeat split; vm_compute; reflexivity. Qed.
